(** * Job-dispatch client: a shallow embedding of [client/client.py],
      [client/jobs.py] and [client/helpers.py], and the properties of the
      retry controller, the encoders, the response validator and the health
      probe.

    Python values are an inductive type, dictionaries received from the caller
    are finite maps, dictionaries whose order reaches the wire are association
    lists.  Exceptions are values; functions that touch the network, the clock
    or the logger live in a state-and-exception monad over the trace of
    observable events.  The Python libraries the code calls (PIL, base64, json,
    os.path, numpy, requests) are parameters: a record of functions for the
    pure ones, an oracle indexed by the number of earlier calls for the
    network. *)

From Stdlib Require Import ZArith Ascii String List Lia.
From Stdlib.Strings Require Import Byte.
From stdpp Require Import base option strings pretty gmap list.

Local Open Scope string_scope.
Local Open Scope list_scope.
Local Open Scope Z_scope.

(** ** Exceptions *)

(** The classes the code raises itself, and two buckets for what the libraries
    raise: subclasses of [Exception] (requests.ConnectionError, requests.Timeout,
    json.JSONDecodeError, binascii.Error, PIL.UnidentifiedImageError, OSError)
    and classes that derive from [BaseException] only (KeyboardInterrupt,
    SystemExit), which [except Exception] does not catch and a bare [except:]
    does. *)
Inductive ExnClass : Type :=
| AssertionError
| ValueError
| TypeError
| AttributeError
| LibraryException (name : string)
| LibraryBaseException (name : string).

Record Exn : Type := mkExn { exn_class : ExnClass; exn_msg : string }.

Definition is_Exception (e : Exn) : bool :=
  match exn_class e with
  | LibraryBaseException _ => false
  | _ => true
  end.

(** Result of a call that has no effect but may raise. *)
Inductive Exc (A : Type) : Type :=
| Ok (a : A)
| Err (e : Exn).
Arguments Ok {A} a.
Arguments Err {A} e.

Definition exc_bind {A B : Type} (x : Exc A) (k : A -> Exc B) : Exc B :=
  match x with
  | Ok a => k a
  | Err e => Err e
  end.

Declare Scope exc_scope.
Delimit Scope exc_scope with exc.
Notation "'let?' x ':=' e 'in' k" := (exc_bind e (fun x => k))
  (at level 10, x name, e at level 100, k at level 200, only parsing) : exc_scope.
Notation "'let?' ' p ':=' e 'in' k" := (exc_bind e (fun p => k))
  (at level 10, p pattern, e at level 100, k at level 200, only parsing) : exc_scope.

(** [assert cond, msg] *)
Definition py_assert (cond : bool) (msg : string) : Exc unit :=
  if cond then Ok tt else Err (mkExn AssertionError msg).

(** [try: body except: raise ValueError(msg)] with a bare [except]. *)
Definition except_all_raise {A : Type} (body : Exc A) (e' : Exn) : Exc A :=
  match body with
  | Ok a => Ok a
  | Err _ => Err e'
  end.

(** ** Python values *)

Definition bytes : Type := list byte.

Section Values.
Context {Image Ndarray : Type}.

(** [Image] stands for [PIL.Image.Image] objects and [Ndarray] for
    [numpy.ndarray] objects.  Floating-point numbers are left out. *)
#[warnings="-register-all"]
Inductive PyVal : Type :=
| VNone
| VBool (b : bool)
| VInt (z : Z)
| VStr (s : string)
| VBytes (b : bytes)
| VList (l : list PyVal)
| VDict (kvs : list (string * PyVal))
| VNdarray (a : Ndarray)
| VImage (i : Image).

(** [str(type(v))] *)
Definition type_repr (v : PyVal) : string :=
  match v with
  | VNone => "<class 'NoneType'>"
  | VBool _ => "<class 'bool'>"
  | VInt _ => "<class 'int'>"
  | VStr _ => "<class 'str'>"
  | VBytes _ => "<class 'bytes'>"
  | VList _ => "<class 'list'>"
  | VDict _ => "<class 'dict'>"
  | VNdarray _ => "<class 'numpy.ndarray'>"
  | VImage _ => "<class 'PIL.Image.Image'>"
  end.

(** Lookup in a dictionary kept as an association list. *)
Fixpoint assoc (k : string) (kvs : list (string * PyVal)) : option PyVal :=
  match kvs with
  | [] => None
  | (k', v) :: rest => if String.eqb k k' then Some v else assoc k rest
  end.

(** [v.get(k, dflt)]: only dictionaries have a [get] method. *)
Definition py_get (v : PyVal) (k : string) (dflt : PyVal) : Exc PyVal :=
  match v with
  | VDict kvs => Ok (default dflt (assoc k kvs))
  | _ => Err (mkExn AttributeError ("object has no attribute 'get'"))
  end.
End Values.
Arguments PyVal : clear implicits.

(** ** The libraries *)

(** The pure library functions the client calls.  Each returns its value or
    the exception it raises. *)
Record Lib (Image Ndarray : Type) : Type := mkLib {
  (** [os.path.isfile(path)] *)
  os_path_isfile : string -> bool;
  (** [Image.open(path)] *)
  Image_open_path : string -> Exc Image;
  (** [Image.open(io.BytesIO(b))] *)
  Image_open_bytes : bytes -> Exc Image;
  (** [buf = io.BytesIO(); img.save(buf, format="PNG"); buf.getvalue()] *)
  Image_save_png : Image -> Exc bytes;
  (** [Image.fromarray(a.astype("uint8"))] *)
  Image_fromarray_uint8 : Ndarray -> Exc Image;
  (** [np.array(img)] *)
  np_array : Image -> Exc Ndarray;
  (** [base64.b64decode(v)] *)
  b64decode : PyVal Image Ndarray -> Exc bytes;
  (** [json.dumps(v)] *)
  json_dumps : PyVal Image Ndarray -> Exc string
}.
Arguments os_path_isfile {Image Ndarray} _ _.
Arguments Image_open_path {Image Ndarray} _ _.
Arguments Image_open_bytes {Image Ndarray} _ _.
Arguments Image_save_png {Image Ndarray} _ _.
Arguments Image_fromarray_uint8 {Image Ndarray} _ _.
Arguments np_array {Image Ndarray} _ _.
Arguments b64decode {Image Ndarray} _ _.
Arguments json_dumps {Image Ndarray} _ _.

(** ** helpers.py: ImageConverter *)

(** [s.lower()] on ASCII letters. *)
Definition lower_ascii (c : ascii) : ascii :=
  let n := nat_of_ascii c in
  if (Nat.leb 65 n && Nat.leb n 90)%bool then ascii_of_nat (n + 32) else c.

Fixpoint lower (s : string) : string :=
  match s with
  | EmptyString => EmptyString
  | String c rest => String (lower_ascii c) (lower rest)
  end.

Section ImageConverter.
Context {Image Ndarray : Type} (lib : Lib Image Ndarray).
Local Open Scope exc_scope.

Definition to_bytes (image_input : PyVal Image Ndarray) : Exc bytes :=
  match image_input with
  | VBytes b => Ok b
  | VStr s =>
      if os_path_isfile lib s then
        let? img := Image_open_path lib s in
        Image_save_png lib img
      else
        except_all_raise (b64decode lib (VStr s))
          (mkExn ValueError
             "String input must be either a valid file path or base64 encoded image")
  | VNdarray a =>
      let? image := Image_fromarray_uint8 lib a in
      Image_save_png lib image
  | VImage i => Image_save_png lib i
  | _ => Err (mkExn ValueError ("Unsupported input type: " +:+ type_repr image_input))
  end.

Definition from_bytes (image_bytes : bytes) (target_type : string)
  : Exc (PyVal Image Ndarray) :=
  if String.eqb (lower target_type) "bytes" then Ok (VBytes image_bytes)
  else
    let? image := Image_open_bytes lib image_bytes in
    if String.eqb (lower target_type) "pil" then Ok (VImage image)
    else if String.eqb (lower target_type) "numpy" then
      let? arr := np_array lib image in Ok (VNdarray arr)
    else Err (mkExn ValueError ("Unsupported target type: " +:+ target_type)).
End ImageConverter.

(** ** jobs.py: the six job classes *)

Inductive JobClass : Type :=
| FaceJob
| HandsFixJob
| MaskJob
| ModelGenerationJob
| RetouchJob
| TryOnJob.

(** A file tuple [(filename, content, content_type)]; the content is [None]
    where the code leaves it so. *)
Record FilePart : Type := mkFilePart {
  filename : string;
  content : option bytes;
  content_type : string
}.

(** The [files] and [data] arguments of [requests.post]: dictionaries in
    insertion order, or [None]. *)
Definition Files : Type := option (list (string * FilePart)).
Definition FormData : Type := option (list (string * string)).

(** A [requests.Response]: the status code, the body text, and what
    [response.json()] returns or raises. *)
Record Response (Image Ndarray : Type) : Type := mkResponse {
  status_code : Z;
  text : string;
  json : Exc (PyVal Image Ndarray)
}.
Arguments mkResponse {Image Ndarray} _ _ _.
Arguments status_code {Image Ndarray} _.
Arguments text {Image Ndarray} _.
Arguments json {Image Ndarray} _.

Section Jobs.
Context {Image Ndarray : Type} (lib : Lib Image Ndarray).
Local Open Scope exc_scope.

Local Abbreviation Value := (PyVal Image Ndarray).

(** [key in input_data] *)
Definition py_in (key : string) (input_data : gmap string Value) : bool :=
  match input_data !! key with
  | Some _ => true
  | None => false
  end.

(** [input_data.get(key, dflt)] *)
Definition dict_get (input_data : gmap string Value) (key : string) (dflt : Value)
  : Value :=
  default dflt (input_data !! key).

Definition FaceJob_process_inputs (input_data : gmap string Value)
  : Exc (Files * FormData) :=
  let? _ := py_assert (py_in "model_img" input_data)
              "Missing 'model_img' key in input data" in
  let? _ := py_assert (py_in "generation_type" input_data)
              "Missing 'generation_type' key in input data" in
  let? _ := py_assert (py_in "inpaint_params" input_data)
              "Missing 'inpaint_params' key in input data" in
  let? _ := py_assert (py_in "prompt" input_data)
              "Missing 'prompt' key in input data" in
  let model_img := dict_get input_data "model_img" VNone in
  let inpaint_params := dict_get input_data "inpaint_params" VNone in
  let generation_type := dict_get input_data "generation_type" VNone in
  let prompt := dict_get input_data "prompt" VNone in
  let? model_img := to_bytes lib model_img in
  let model_file := mkFilePart "model.png" (Some model_img) "image/png" in
  let files := [("model_img_buffer", model_file)] in
  let generation_data :=
    VDict [("inpaint_params", inpaint_params);
           ("generation_type", generation_type);
           ("prompt", prompt)] in
  let? dumped := json_dumps lib generation_data in
  let form_data := [("generation_data", dumped)] in
  Ok (Some files, Some form_data).

Definition MaskJob_process_inputs (input_data : gmap string Value)
  : Exc (Files * FormData) :=
  let? _ := py_assert (py_in "category" input_data)
              "Missing 'category' key in input_data" in
  let? _ := py_assert (py_in "model_img" input_data)
              "Missing 'model_img' key in input_data" in
  let model_img := dict_get input_data "model_img" VNone in
  let category := dict_get input_data "category" VNone in
  let? model_img := to_bytes lib model_img in
  let model_file := mkFilePart "model.png" (Some model_img) "image/png" in
  let files := [("model_img_buffer", model_file)] in
  let generation_data := VDict [("category", category)] in
  let? dumped := json_dumps lib generation_data in
  let form_data := [("generation_data", dumped)] in
  Ok (Some files, Some form_data).

Definition TryOnJob_process_inputs (input_data : gmap string Value)
  : Exc (Files * FormData) :=
  let? _ := py_assert (py_in "category" input_data)
              "Missing 'category' key in input_data" in
  let? _ := py_assert (py_in "model_img" input_data)
              "Missing 'model_img' key in input_data" in
  let? _ := py_assert (py_in "cloth_img" input_data)
              "Missing 'cloth_img' key in input_data" in
  let? _ := py_assert (py_in "mask_img" input_data)
              "Missing 'mask_img' key in input_data" in
  let model_img := dict_get input_data "model_img" VNone in
  let cloth_img := dict_get input_data "cloth_img" VNone in
  let mask_img := dict_get input_data "mask_img" VNone in
  let category := dict_get input_data "category" VNone in
  let? model_img := to_bytes lib model_img in
  let model_file := mkFilePart "model.png" (Some model_img) "image/png" in
  let? cloth_img := to_bytes lib cloth_img in
  let cloth_file := mkFilePart "cloth.png" (Some cloth_img) "image/png" in
  let? mask_img :=
    match mask_img with
    | VNone => Ok None
    | _ => let? b := to_bytes lib mask_img in Ok (Some b)
    end in
  let mask_file := mkFilePart "mask.png" mask_img "image/png" in
  let files :=
    [("model_img_buffer", model_file);
     ("cloth_img_buffer", cloth_file);
     ("mask_img_buffer", mask_file)] in
  let generation_data := VDict [("category", category)] in
  let? dumped := json_dumps lib generation_data in
  let form_data := [("generation_data", dumped)] in
  Ok (Some files, Some form_data).

Definition HandsFixJob_process_inputs (input_data : gmap string Value)
  : Exc (Files * FormData) :=
  let? _ := py_assert (py_in "model_img" input_data)
              "Missing 'model_img' key in input_data" in
  let model_img := dict_get input_data "model_img" VNone in
  let? model_img := to_bytes lib model_img in
  let model_file := mkFilePart "model.png" (Some model_img) "image/png" in
  let files := [("model_img_buffer", model_file)] in
  Ok (Some files, None).

Definition RetouchJob_process_inputs (input_data : gmap string Value)
  : Exc (Files * FormData) :=
  let? _ := py_assert (py_in "model_img" input_data)
              "Missing 'model_img' key in input_data" in
  let model_img := dict_get input_data "model_img" VNone in
  let? model_img := to_bytes lib model_img in
  let model_file := mkFilePart "model.png" (Some model_img) "image/png" in
  let files := [("model_img_buffer", model_file)] in
  let generation_data := VDict [("seed", dict_get input_data "seed" VNone)] in
  let? dumped := json_dumps lib generation_data in
  let form_data := [("generation_data", dumped)] in
  Ok (Some files, Some form_data).

Definition ModelGenerationJob_process_inputs (input_data : gmap string Value)
  : Exc (Files * FormData) :=
  let? _ := py_assert (py_in "prompt" input_data)
              "Missing 'prompt' key in input data" in
  let prompt := dict_get input_data "prompt" VNone in
  let seed := dict_get input_data "seed" VNone in
  let generation_data := VDict [("prompt", prompt); ("seed", seed)] in
  let? dumped := json_dumps lib generation_data in
  let form_data := [("generation_data", dumped)] in
  Ok (None, Some form_data).

(** [self.job_class.process_inputs(input_data=input_data)] *)
Definition process_inputs (job_class : JobClass) (input_data : gmap string Value)
  : Exc (Files * FormData) :=
  match job_class with
  | FaceJob => FaceJob_process_inputs input_data
  | HandsFixJob => HandsFixJob_process_inputs input_data
  | MaskJob => MaskJob_process_inputs input_data
  | ModelGenerationJob => ModelGenerationJob_process_inputs input_data
  | RetouchJob => RetouchJob_process_inputs input_data
  | TryOnJob => TryOnJob_process_inputs input_data
  end.
Definition FaceJob_process_outputs (response : Response Image Ndarray) : Exc Value :=
  let? result_data := json response in
  let? result := py_get result_data "result" VNone in
  let? decoded_result := b64decode lib result in
  from_bytes lib decoded_result "PIL".

Definition MaskJob_process_outputs (response : Response Image Ndarray) : Exc Value :=
  let? result_data := json response in
  let? result := py_get result_data "result" VNone in
  let? decoded_result := b64decode lib result in
  from_bytes lib decoded_result "PIL".

Definition TryOnJob_process_outputs (response : Response Image Ndarray) : Exc Value :=
  let? result_data := json response in
  let? result := py_get result_data "result" VNone in
  let? decoded_result := b64decode lib result in
  from_bytes lib decoded_result "PIL".

Definition HandsFixJob_process_outputs (response : Response Image Ndarray) : Exc Value :=
  let? result_data := json response in
  let? result := py_get result_data "result" VNone in
  let? decoded_result := b64decode lib result in
  from_bytes lib decoded_result "PIL".

Definition RetouchJob_process_outputs (response : Response Image Ndarray) : Exc Value :=
  let? result_data := json response in
  let? result := py_get result_data "result" VNone in
  let? decoded_result := b64decode lib result in
  from_bytes lib decoded_result "PIL".

Definition ModelGenerationJob_process_outputs (response : Response Image Ndarray) : Exc Value :=
  let? result_data := json response in
  let? result := py_get result_data "result" VNone in
  let? decoded_result := b64decode lib result in
  from_bytes lib decoded_result "PIL".

(** [self.job_class.process_outputs(response=response)] *)
Definition process_outputs (job_class : JobClass) (response : Response Image Ndarray)
  : Exc Value :=
  match job_class with
  | FaceJob => FaceJob_process_outputs response
  | HandsFixJob => HandsFixJob_process_outputs response
  | MaskJob => MaskJob_process_outputs response
  | ModelGenerationJob => ModelGenerationJob_process_outputs response
  | RetouchJob => RetouchJob_process_outputs response
  | TryOnJob => TryOnJob_process_outputs response
  end.
End Jobs.

(** ** The observable world *)

(** The keyword arguments of [requests.post]. *)
Record PostRequest : Type := mkPostRequest {
  post_url : string;
  post_files : Files;
  post_data : FormData;
  post_timeout : Z
}.

Inductive LogLevel : Type := INFO | ERROR.

Section World.
Context {Image Ndarray : Type}.

Local Abbreviation Value := (PyVal Image Ndarray).

(** The messages the client logs.  The elapsed wall-clock time printed by
    [LogTimeTaken] is not modelled. *)
Inductive LogMsg : Type :=
| LogSendingRequest (attempt_no : Z)
| LogTimeTaken
| LogAttemptFailed (attempt_no : Z) (e : Exn)
| LogRetrying
| LogAllFailed
| LogServerError (error : Value)
| LogStackTraceHeader
| LogStackTrace (stack_trace : Value)
| LogRawResponse (body : string).

Inductive Event : Type :=
| EvPost (req : PostRequest)
| EvGet (url : string) (timeout : Z)
| EvSleep (seconds : Z)
| EvLog (level : LogLevel) (msg : LogMsg).

(** Events in the order they happened. *)
Definition Trace : Type := list Event.

Definition is_post (ev : Event) : bool :=
  match ev with EvPost _ => true | _ => false end.

Definition is_get (ev : Event) : bool :=
  match ev with EvGet _ _ => true | _ => false end.

Definition is_log (ev : Event) : bool :=
  match ev with EvLog _ _ => true | _ => false end.

Definition count_posts (tr : Trace) : nat := length (List.filter is_post tr).
Definition count_gets (tr : Trace) : nat := length (List.filter is_get tr).

(** What is left of a trace when the log lines are dropped: the network
    calls and the sleeps. *)
Definition actions (tr : Trace) : Trace :=
  List.filter (fun ev => negb (is_log ev)) tr.

(** The server and the network: what the [n]-th POST (resp. GET) of the run
    returns or raises. *)
Record Net : Type := mkNet {
  net_post : nat -> PostRequest -> Exc (Response Image Ndarray);
  net_get : nat -> string -> Z -> Exc (Response Image Ndarray)
}.

(** How a call ends.  [OutOfFuel] is the model's own: the loop of [run_job]
    is given a bound on its iterations, and [run_job_fuel_suffices] shows the
    bound is never reached. *)
Inductive Outcome (A : Type) : Type :=
| Returned (a : A)
| Raised (e : Exn)
| OutOfFuel.
#[global] Arguments Returned {A} a.
#[global] Arguments Raised {A} e.
#[global] Arguments OutOfFuel {A}.

Definition M (A : Type) : Type := Trace -> Outcome A * Trace.

Definition ret {A : Type} (a : A) : M A := fun tr => (Returned a, tr).

Definition bind {A B : Type} (m : M A) (k : A -> M B) : M B :=
  fun tr =>
    match m tr with
    | (Returned a, tr') => k a tr'
    | (Raised e, tr') => (Raised e, tr')
    | (OutOfFuel, tr') => (OutOfFuel, tr')
    end.

Definition raise {A : Type} (e : Exn) : M A := fun tr => (Raised e, tr).

Definition out_of_fuel {A : Type} : M A := fun tr => (OutOfFuel, tr).

Definition lift {A : Type} (x : Exc A) : M A :=
  match x with
  | Ok a => ret a
  | Err e => raise e
  end.

Definition emit (ev : Event) : M unit := fun tr => (Returned tt, tr ++ [ev]).

(** [try: body except Exception as e: handler(e)] *)
Definition try_except_Exception {A : Type} (body : M A) (handler : Exn -> M A) : M A :=
  fun tr =>
    match body tr with
    | (Raised e, tr') => if is_Exception e then handler e tr' else (Raised e, tr')
    | r => r
    end.

(** [try: body except: handler] *)
Definition try_except {A : Type} (body : M A) (handler : M A) : M A :=
  fun tr =>
    match body tr with
    | (Raised e, tr') => handler tr'
    | r => r
    end.

Definition logger_info (msg : LogMsg) : M unit := emit (EvLog INFO msg).
Definition logger_error (msg : LogMsg) : M unit := emit (EvLog ERROR msg).
Definition time_sleep (seconds : Z) : M unit := emit (EvSleep seconds).

Definition requests_post (net : Net) (req : PostRequest) : M (Response Image Ndarray) :=
  fun tr =>
    match net_post net (count_posts tr) req with
    | Ok r => (Returned r, tr ++ [EvPost req])
    | Err e => (Raised e, tr ++ [EvPost req])
    end.

Definition requests_get (net : Net) (url : string) (timeout : Z)
  : M (Response Image Ndarray) :=
  fun tr =>
    match net_get net (count_gets tr) url timeout with
    | Ok r => (Returned r, tr ++ [EvGet url timeout])
    | Err e => (Raised e, tr ++ [EvGet url timeout])
    end.
End World.
Arguments LogMsg : clear implicits.
Arguments Event : clear implicits.
Arguments Trace : clear implicits.
Arguments Net : clear implicits.
Arguments M : clear implicits.

Declare Scope io_scope.
Delimit Scope io_scope with io.
Notation "'let!' x ':=' e 'in' k" := (bind e (fun x => k))
  (at level 10, x name, e at level 100, k at level 200, only parsing) : io_scope.
Notation "'let!' ' p ':=' e 'in' k" := (bind e (fun p => k))
  (at level 10, p pattern, e at level 100, k at level 200, only parsing) : io_scope.
Notation "'do!' e 'in' k" := (bind e (fun _ => k))
  (at level 10, e at level 100, k at level 200, only parsing) : io_scope.

(** ** client.py: JobClient *)

Definition job_mapping : gmap string JobClass :=
  list_to_map
    [("face_job", FaceJob);
     ("handsfix_job", HandsFixJob);
     ("mask_job", MaskJob);
     ("model_generation_job", ModelGenerationJob);
     ("retouch_job", RetouchJob);
     ("tryon_job", TryOnJob)].

Record JobClient : Type := mkJobClient {
  job_class : JobClass;
  job_type : string;
  server_url : string;
  max_timeout : Z
}.

(** The default of the [max_timeout] parameter of [__init__]. *)
Definition default_max_timeout : Z := 600.

(** [JobClient.__init__(self, server_url, job_type, max_timeout)] *)
Definition JobClient_init (server_url job_type : string) (max_timeout : Z)
  : Exc JobClient :=
  match job_mapping !! job_type with
  | None => Err (mkExn AssertionError ("Invalid job type: " +:+ job_type))
  | Some cls => Ok (mkJobClient cls job_type server_url max_timeout)
  end.

(** What an iteration of the [while] loop of [run_job] decides: [return] from
    the function, or go round again with the updated counter. *)
Inductive LoopControl (V : Type) : Type :=
| LoopReturn (v : V)
| LoopContinue (attempt : Z).
Arguments LoopReturn {V} v.
Arguments LoopContinue {V} attempt.

Section Client.
Context {Image Ndarray : Type} (lib : Lib Image Ndarray) (net : Net Image Ndarray).
Local Open Scope io_scope.

Local Abbreviation Value := (PyVal Image Ndarray).

(** [key in v] *)
Definition py_contains (key : string) (v : Value) : Exc bool :=
  match v with
  | VDict kvs => Ok (match assoc key kvs with Some _ => true | None => false end)
  | VList l =>
      Ok (existsb (fun x => match x with VStr s => String.eqb s key | _ => false end) l)
  | VStr s => Ok (match String.index 0 key s with Some _ => true | None => false end)
  | _ => Err (mkExn TypeError ("argument of type is not iterable"))
  end.

(** [v[key]] for a string key *)
Definition py_getitem (v : Value) (key : string) : Exc Value :=
  match v with
  | VDict kvs =>
      match assoc key kvs with
      | Some x => Ok x
      | None => Err (mkExn (LibraryException "KeyError") key)
      end
  | _ => Err (mkExn TypeError "indices must be integers or object is not subscriptable")
  end.

Definition _check_response (self : JobClient) (response : Response Image Ndarray)
  : M Image Ndarray unit :=
  if negb (status_code response =? 200) then
    try_except
      (let! error_data := lift (json response) in
       let! error := lift (py_get error_data "error" (VStr "Unknown error")) in
       do! logger_error (LogServerError error) in
       let! has_trace := lift (py_contains "stack_trace" error_data) in
       if has_trace then
         do! logger_error LogStackTraceHeader in
         let! stack_trace := lift (py_getitem error_data "stack_trace") in
         logger_error (LogStackTrace stack_trace)
       else ret tt)
      (logger_error (LogRawResponse (text response)))
  else ret tt.

Definition _check_health (self : JobClient) : M Image Ndarray bool :=
  try_except
    (let! response := requests_get net (server_url self +:+ "/health") 5 in
     ret (status_code response =? 200))
    (ret false).

(** The body of the [try] block of [run_job]; it ends in [return result_img]. *)
Definition run_job_try (self : JobClient) (files : Files) (form_data : FormData)
  (attempt : Z) : M Image Ndarray (LoopControl Value) :=
  do! logger_info (LogSendingRequest (attempt + 1)) in
  let! response :=
    requests_post net
      {| post_url := server_url self +:+ "/run_job";
         post_files := files;
         post_data := form_data;
         post_timeout := 600 |} in
  do! _check_response self response in
  let! result_img := lift (process_outputs lib (job_class self) response) in
  do! logger_info LogTimeTaken in
  ret (LoopReturn result_img).

(** The [except Exception as e] block of [run_job]. *)
Definition run_job_except (retry : Z) (attempt : Z) (e : Exn)
  : M Image Ndarray (LoopControl Value) :=
  do! logger_error (LogAttemptFailed (attempt + 1) e) in
  let attempt := attempt + 1 in
  if attempt <? retry then
    do! logger_info LogRetrying in
    do! time_sleep 2 in
    ret (LoopContinue attempt)
  else
    do! logger_error LogAllFailed in
    raise e.

(** [while attempt < retry: try: ... except Exception as e: ...]; falling out
    of the loop, the function returns [None]. *)
Fixpoint run_job_loop (fuel : nat) (self : JobClient) (files : Files)
  (form_data : FormData) (retry : Z) (attempt : Z) : M Image Ndarray Value :=
  if attempt <? retry then
    match fuel with
    | O => out_of_fuel
    | S fuel' =>
        let! ctl :=
          try_except_Exception
            (run_job_try self files form_data attempt)
            (run_job_except retry attempt) in
        match ctl with
        | LoopReturn result_img => ret result_img
        | LoopContinue attempt' =>
            run_job_loop fuel' self files form_data retry attempt'
        end
    end
  else ret VNone.

Definition run_job (self : JobClient) (input_data : gmap string Value) (retry : Z)
  : M Image Ndarray Value :=
  let! '(files, form_data) := lift (process_inputs lib (job_class self) input_data) in
  let attempt := 0 in
  run_job_loop (Z.to_nat retry) self files form_data retry attempt.

(** The default of the [retry] parameter of [run_job]. *)
Definition default_retry : Z := 3.

(** *** The retry controller as the specification words it

    The reference behaviour of the specification (section 4.6).  A failure of
    the encoder is fail-fast: it "bypasses the loop entirely", without retry
    and without sleep; so the encoder gives its verdict on the input before
    the loop, whatever the budget.  The payload of that run is not kept:
    every attempt encodes the input again before it sends, and a failure of
    that run leaves the call at once as well.  The runs of the encoder are
    numbered from 0, and [encoder_lib n] is what the [n]-th run finds in the
    image library and on the disk, which may change between the runs.
    Sending, validating and decoding are those of the implementation. *)
Fixpoint run_job_reference_loop (fuel : nat) (encoder_lib : nat -> Lib Image Ndarray)
  (self : JobClient) (input_data : gmap string Value) (retry : Z) (attempt : Z)
  (encodings : nat) : M Image Ndarray Value :=
  if attempt <? retry then
    match fuel with
    | O => out_of_fuel
    | S fuel' =>
        let! '(files, form_data) :=
          lift (process_inputs (encoder_lib encodings) (job_class self) input_data) in
        let! ctl :=
          try_except_Exception
            (run_job_try self files form_data attempt)
            (run_job_except retry attempt) in
        match ctl with
        | LoopReturn result_img => ret result_img
        | LoopContinue attempt' =>
            run_job_reference_loop fuel' encoder_lib self input_data retry attempt'
              (S encodings)
        end
    end
  else ret VNone.

Definition run_job_reference (encoder_lib : nat -> Lib Image Ndarray)
  (self : JobClient) (input_data : gmap string Value) (retry : Z)
  : M Image Ndarray Value :=
  let! _ := lift (process_inputs (encoder_lib 0%nat) (job_class self) input_data) in
  run_job_reference_loop (Z.to_nat retry) encoder_lib self input_data retry 0 1.
End Client.

(** ** A concrete world

    One instance of the libraries and of the server, on which the definitions
    above can be evaluated: an image is identified with the bytes of its PNG
    file, there are no arrays and no image files on disk, base64 and JSON are
    the standard codecs on the inputs used below. *)
Module Sample.

Definition Image : Type := bytes.
Definition Ndarray : Type := Empty_set.
Abbreviation Value := (PyVal Image Ndarray).

Definition png_signature : bytes := [x89; x50; x4e; x47; x0d; x0a; x1a; x0a].

Definition bytes_eqb (a b : bytes) : bool :=
  bool_decide (List.map Byte.to_N a = List.map Byte.to_N b).

Definition open_png (b : bytes) : Exc Image :=
  if bytes_eqb (firstn 8 b) png_signature then Ok b
  else Err (mkExn (LibraryException "PIL.UnidentifiedImageError")
              "cannot identify image file").

(** The value of a character of the base64 alphabet. *)
Definition b64_sextet (c : ascii) : option N :=
  let n := N_of_ascii c in
  if ((65 <=? n) && (n <=? 90))%N then Some (n - 65)%N
  else if ((97 <=? n) && (n <=? 122))%N then Some (n - 71)%N
  else if ((48 <=? n) && (n <=? 57))%N then Some (n + 4)%N
  else if (n =? 43)%N then Some 62%N
  else if (n =? 47)%N then Some 63%N
  else None.

Definition byte_of_N (n : N) : byte := byte_of_ascii (ascii_of_N n).

Definition is_pad (c : ascii) : bool := (N_of_ascii c =? 61)%N.

Definition b64_error : Exn :=
  mkExn (LibraryException "binascii.Error") "Incorrect padding".

(** Decoding of a padded base64 text, four characters at a time. *)
Fixpoint b64_text (s : string) : Exc bytes :=
  match s with
  | EmptyString => Ok []
  | String c1 (String c2 (String c3 (String c4 rest))) =>
      match b64_sextet c1, b64_sextet c2 with
      | Some a, Some b =>
          let b1 := byte_of_N (a * 4 + b / 16) in
          match b64_sextet c3, b64_sextet c4 with
          | Some c, Some d =>
              let b2 := byte_of_N ((b mod 16) * 16 + c / 4) in
              let b3 := byte_of_N ((c mod 4) * 64 + d) in
              match b64_text rest with
              | Ok tl => Ok (b1 :: b2 :: b3 :: tl)
              | Err e => Err e
              end
          | Some c, None =>
              if is_pad c4 && match rest with EmptyString => true | _ => false end
              then Ok [b1; byte_of_N ((b mod 16) * 16 + c / 4)]
              else Err b64_error
          | None, _ =>
              if is_pad c3 && is_pad c4
                 && match rest with EmptyString => true | _ => false end
              then Ok [b1]
              else Err b64_error
          end
      | _, _ => Err b64_error
      end
  | _ => Err b64_error
  end.

Definition sample_b64decode (v : Value) : Exc bytes :=
  match v with
  | VStr s => b64_text s
  | VBytes b => b64_text (string_of_list_byte b)
  | _ => Err (mkExn TypeError
                ("argument should be a bytes-like object or ASCII string, not "
                 +:+ type_repr v))
  end.

Definition dquote : string := String (ascii_of_N 34) EmptyString.

Definition not_serializable (v : Value) : Exn :=
  mkExn TypeError ("Object of type " +:+ type_repr v +:+ " is not JSON serializable").

(** [json.dumps] with the default separators, on [None], booleans, integers,
    strings without characters to escape, lists and dictionaries. *)
Fixpoint sample_json_dumps (v : Value) : Exc string :=
  match v with
  | VNone => Ok "null"
  | VBool true => Ok "true"
  | VBool false => Ok "false"
  | VInt z => Ok (pretty z)
  | VStr s => Ok (dquote +:+ s +:+ dquote)
  | VList l =>
      let fix items (l : list Value) : Exc string :=
        match l with
        | [] => Ok ""
        | x :: rest =>
            match sample_json_dumps x, items rest with
            | Ok sx, Ok sr =>
                Ok (sx +:+ (match rest with [] => "" | _ => ", " end) +:+ sr)
            | Err e, _ => Err e
            | _, Err e => Err e
            end
        end in
      match items l with
      | Ok s => Ok ("[" +:+ s +:+ "]")
      | Err e => Err e
      end
  | VDict kvs =>
      let fix items (l : list (string * Value)) : Exc string :=
        match l with
        | [] => Ok ""
        | (k, x) :: rest =>
            match sample_json_dumps x, items rest with
            | Ok sx, Ok sr =>
                Ok (dquote +:+ k +:+ dquote +:+ ": " +:+ sx
                    +:+ (match rest with [] => "" | _ => ", " end) +:+ sr)
            | Err e, _ => Err e
            | _, Err e => Err e
            end
        end in
      match items kvs with
      | Ok s => Ok ("{" +:+ s +:+ "}")
      | Err e => Err e
      end
  | _ => Err (not_serializable v)
  end.

Definition no_such_file (path : string) : Exn :=
  mkExn (LibraryException "FileNotFoundError") path.

Definition lib : Lib Image Ndarray :=
  {| os_path_isfile := fun _ => false;
     Image_open_path := fun path => Err (no_such_file path);
     Image_open_bytes := open_png;
     Image_save_png := fun img => Ok img;
     Image_fromarray_uint8 := fun a => match (a : Empty_set) with end;
     np_array := fun _ => Err (mkExn TypeError "no arrays in this world");
     b64decode := sample_b64decode;
     json_dumps := sample_json_dumps |}.

(** A 1x1 PNG file in base64, and its bytes. *)
Definition pixel_b64 : string :=
  "iVBORw0KGgoAAAANSUhEUgAAAAEAAAABCAYAAAAfFcSJAAAADUlEQVR42mNkYPhfDwAChwGA60e6kgAAAABJRU5ErkJggg==".

Definition pixel_png : bytes :=
  match b64_text pixel_b64 with
  | Ok b => b
  | Err _ => []
  end.

(** A response whose body is the JSON text of [v]. *)
Definition json_response (status : Z) (v : Value) : Response Image Ndarray :=
  {| status_code := status;
     text := match sample_json_dumps v with Ok s => s | Err _ => "" end;
     json := Ok v |}.

(** A response whose body is not JSON. *)
Definition text_response (status : Z) (body : string) : Response Image Ndarray :=
  {| status_code := status;
     text := body;
     json := Err (mkExn (LibraryException "requests.exceptions.JSONDecodeError")
                    "Expecting value: line 1 column 1 (char 0)") |}.

(** A server that answers every request the same way. *)
Definition constant_server (r : Exc (Response Image Ndarray)) : Net Image Ndarray :=
  {| net_post := fun _ _ => r; net_get := fun _ _ _ => r |}.

(** A server that answers the [n]-th POST with the [n]-th element of a script
    and refuses the connection afterwards. *)
Definition connection_refused : Exn :=
  mkExn (LibraryException "requests.exceptions.ConnectionError") "Connection refused".

Definition scripted_server (script : list (Exc (Response Image Ndarray)))
  : Net Image Ndarray :=
  {| net_post := fun n _ => nth n script (Err connection_refused);
     net_get := fun _ _ _ => Err connection_refused |}.

(** HTTP 500 with a structured error body. *)
Definition error_500 : Response Image Ndarray :=
  json_response 500
    (VDict [("error", VStr "CUDA out of memory");
            ("stack_trace", VStr "Traceback (most recent call last): ...")]).

(** HTTP 500 whose body nevertheless carries a result. *)
Definition result_500 : Response Image Ndarray :=
  json_response 500 (VDict [("result", VStr pixel_b64)]).

Definition result_200 : Response Image Ndarray :=
  json_response 200 (VDict [("result", VStr pixel_b64)]).

Definition mask_input : gmap string Value :=
  {[ "model_img" := VBytes pixel_png; "category" := VStr "upper_body" ]}.

Definition tryon_input_null_mask : gmap string Value :=
  {[ "category" := VStr "upper_body";
     "model_img" := VBytes pixel_png;
     "cloth_img" := VStr pixel_b64;
     "mask_img" := VNone ]}.

Definition handsfix_input : gmap string Value :=
  {[ "model_img" := VBytes pixel_png ]}.

Definition mask_client (timeout : Z) : JobClient :=
  mkJobClient MaskJob "mask_job" "http://gpu:8000" timeout.

Definition gpu_client (cls : JobClass) (name : string) : JobClient :=
  mkJobClient cls name "http://gpu:8000" default_max_timeout.

(** What the mask encoder makes of [mask_input]. *)
Definition mask_files : Files :=
  Some [("model_img_buffer", mkFilePart "model.png" (Some pixel_png) "image/png")].

Definition mask_form : FormData :=
  Some [("generation_data",
         "{" +:+ dquote +:+ "category" +:+ dquote +:+ ": "
         +:+ dquote +:+ "upper_body" +:+ dquote +:+ "}")].

(** What [base64.b64decode(None)] raises: the decoder's error on a body
    without [result]. *)
Definition decode_none_error : Exn :=
  mkExn TypeError
    "argument should be a bytes-like object or ASCII string, not <class 'NoneType'>".

(** A server that always answers 500 with an error body, one that answers 500
    with a result in the body, and one that answers 200 with a result. *)
Definition failing_server : Net Image Ndarray := constant_server (Ok error_500).
Definition odd_server : Net Image Ndarray := constant_server (Ok result_500).
Definition healthy_server : Net Image Ndarray := constant_server (Ok result_200).

End Sample.

(** ** Vocabulary of the specification *)

(** The required inputs of each variant (catalog table, section 4.1), in the
    order the encoder checks them. *)
Definition required_fields (cls : JobClass) : list string :=
  match cls with
  | FaceJob => ["model_img"; "generation_type"; "inpaint_params"; "prompt"]
  | MaskJob => ["category"; "model_img"]
  | TryOnJob => ["category"; "model_img"; "cloth_img"; "mask_img"]
  | HandsFixJob => ["model_img"]
  | RetouchJob => ["model_img"]
  | ModelGenerationJob => ["prompt"]
  end.

(** The metadata fields of each variant (same table). *)
Definition metadata_fields (cls : JobClass) : list string :=
  match cls with
  | FaceJob => ["generation_type"; "inpaint_params"; "prompt"]
  | MaskJob => ["category"]
  | TryOnJob => ["category"]
  | HandsFixJob => []
  | RetouchJob => ["seed"]
  | ModelGenerationJob => ["prompt"; "seed"]
  end.

(** A message names a field when it contains the field's name in quotes. *)
Definition names_field (msg field : string) : Prop :=
  exists before after : string, msg = before +:+ "'" +:+ field +:+ "'" +:+ after.

(** The message of the assertion that guards a required field. *)
Definition missing_message (cls : JobClass) (field : string) : string :=
  "Missing '" +:+ field +:+ "' key in "
  +:+ match cls with
      | FaceJob | ModelGenerationJob => "input data"
      | _ => "input_data"
      end.

(** The request every attempt of [run_job] sends. *)
Definition run_job_request (self : JobClient) (files : Files) (form_data : FormData)
  : PostRequest :=
  {| post_url := server_url self +:+ "/run_job";
     post_files := files;
     post_data := form_data;
     post_timeout := 600 |}.

Section Vocabulary.
Context {Image Ndarray : Type} (lib : Lib Image Ndarray).

Local Abbreviation Value := (PyVal Image Ndarray).
Local Abbreviation Event' := (Event Image Ndarray).

(** The first required field that the input lacks. *)
Definition first_missing (cls : JobClass) (input_data : gmap string Value)
  : option string :=
  List.find (fun k => negb (py_in k input_data)) (required_fields cls).

(** The error envelope of a response, as log lines: the [error] field (or
    its placeholder) and the [stack_trace] field if there is one, when the body
    is a JSON object; the raw text of the body otherwise. *)
Definition envelope_log (r : Response Image Ndarray) : list Event' :=
  match json r with
  | Ok (VDict kvs) =>
      EvLog ERROR (LogServerError (default (VStr "Unknown error") (assoc "error" kvs)))
      :: match assoc "stack_trace" kvs with
         | Some st => [EvLog ERROR LogStackTraceHeader; EvLog ERROR (LogStackTrace st)]
         | None => []
         end
  | _ => [EvLog ERROR (LogRawResponse (text r))]
  end.

(** What the validator adds to the trace. *)
Definition validator_log (r : Response Image Ndarray) : list Event' :=
  if status_code r =? 200 then [] else envelope_log r.

(** The result of one send/validate/decode cycle, given what the POST did. *)
Definition cycle_result (cls : JobClass) (o : Exc (Response Image Ndarray)) : Exc Value :=
  match o with
  | Ok r => process_outputs lib cls r
  | Err e => Err e
  end.

(** The events of one cycle. *)
Definition cycle_events (cls : JobClass) (attempt : Z) (req : PostRequest)
  (o : Exc (Response Image Ndarray)) : list Event' :=
  [EvLog INFO (LogSendingRequest (attempt + 1)); EvPost req]
  ++ match o with
     | Ok r =>
         validator_log r
         ++ match process_outputs lib cls r with
            | Ok _ => [EvLog INFO LogTimeTaken]
            | Err _ => []
            end
     | Err _ => []
     end.

(** Network calls and sleeps of [n] attempts that all fail: a POST, then a
    two-second sleep before each further POST. *)
Fixpoint backoff (req : PostRequest) (n : nat) : list Event' :=
  match n with
  | O => []
  | S n' => EvSleep 2 :: EvPost req :: backoff req n'
  end.

Definition retry_schedule (req : PostRequest) (n : nat) : list Event' :=
  match n with
  | O => []
  | S n' => EvPost req :: backoff req n'
  end.

(** The requests POSTed along a trace, oldest first. *)
Fixpoint posted_requests (tr : list Event') : list PostRequest :=
  match tr with
  | [] => []
  | EvPost req :: rest => req :: posted_requests rest
  | _ :: rest => posted_requests rest
  end.

Definition count_sleeps (tr : list Event') : nat :=
  length (List.filter (fun ev => match ev with EvSleep _ => true | _ => false end) tr).
End Vocabulary.

(** ** helpers.py: ImageConverter.convert *)

Section Convert.
Context {Image Ndarray : Type} (lib : Lib Image Ndarray).
Local Open Scope exc_scope.

(** [ImageConverter.convert(image_input, target_type)] *)
Definition convert (image_input : PyVal Image Ndarray) (target_type : string)
  : Exc (PyVal Image Ndarray) :=
  let? image_bytes := to_bytes lib image_input in
  from_bytes lib image_bytes target_type.
End Convert.

(** The values [ImageConverter.to_bytes] has no branch for. *)
Definition unsupported_image_input {Image Ndarray : Type} (v : PyVal Image Ndarray)
  : bool :=
  match v with
  | VNone | VBool _ | VInt _ | VList _ | VDict _ => true
  | _ => false
  end.

(** The keys of the input an encoder looks at: the required ones and, for the
    two classes that read it, the optional [seed]. *)
Definition read_fields (cls : JobClass) : list string :=
  required_fields cls
  ++ match cls with
     | RetouchJob | ModelGenerationJob => ["seed"]
     | _ => []
     end.

(** The attachment names of each class, in the order of the [files]
    dictionary, with the input field and the file name of each. *)
Definition attachment_slots (cls : JobClass) : list (string * string * string) :=
  match cls with
  | ModelGenerationJob => []
  | TryOnJob =>
      [("model_img_buffer", "model_img", "model.png");
       ("cloth_img_buffer", "cloth_img", "cloth.png");
       ("mask_img_buffer", "mask_img", "mask.png")]
  | _ => [("model_img_buffer", "model_img", "model.png")]
  end.

(** ** s3.py: ExtensionsEnum *)

Inductive ExtensionsEnum : Type :=
| WEBP
| PNG
| JPG
| JPEG
| TIFF
| BLOSC2
| TXT
| JSON
| CSV.

(** [e.value] *)
Definition ExtensionsEnum_value (e : ExtensionsEnum) : string :=
  match e with
  | WEBP => ".webp"
  | PNG => ".png"
  | JPG => ".jpg"
  | JPEG => ".jpeg"
  | TIFF => ".tiff"
  | BLOSC2 => ".blosc2"
  | TXT => ".txt"
  | JSON => ".json"
  | CSV => ".csv"
  end.

(** [[e.value for e in ExtensionsEnum]] *)
Definition ExtensionsEnum_values : list string :=
  List.map ExtensionsEnum_value [WEBP; PNG; JPG; JPEG; TIFF; BLOSC2; TXT; JSON; CSV].

(** [ExtensionsEnum.str_to_extension(extension)].  Strings are byte strings
    here and [lower] acts on ASCII letters; none of the nine names contains a
    letter that a non-ASCII character lowers to. *)
Definition str_to_extension (extension : string) : Exc ExtensionsEnum :=
  if String.eqb (lower extension) "webp" then Ok WEBP
  else if String.eqb (lower extension) "png" then Ok PNG
  else if String.eqb (lower extension) "jpg" then Ok JPG
  else if String.eqb (lower extension) "jpeg" then Ok JPEG
  else if String.eqb (lower extension) "tiff" then Ok TIFF
  else if String.eqb (lower extension) "blosc2" then Ok BLOSC2
  else if String.eqb (lower extension) "txt" then Ok TXT
  else if String.eqb (lower extension) "json" then Ok JSON
  else if String.eqb (lower extension) "csv" then Ok CSV
  else Err (mkExn ValueError ("Invalid extension: " +:+ extension)).

(** ** A state-and-exception monad over any state

    Used for the code below, whose observable events are not those of
    [JobClient]. *)

Section StateMonad.
Context {S : Type}.

Definition St (A : Type) : Type := S -> Outcome A * S.

Definition st_ret {A : Type} (a : A) : St A := fun s => (Returned a, s).

Definition st_bind {A B : Type} (m : St A) (k : A -> St B) : St B :=
  fun s =>
    match m s with
    | (Returned a, s') => k a s'
    | (Raised e, s') => (Raised e, s')
    | (OutOfFuel, s') => (OutOfFuel, s')
    end.

Definition st_raise {A : Type} (e : Exn) : St A := fun s => (Raised e, s).

Definition st_out_of_fuel {A : Type} : St A := fun s => (OutOfFuel, s).

Definition st_lift {A : Type} (x : Exc A) : St A :=
  match x with
  | Ok a => st_ret a
  | Err e => st_raise e
  end.

(** [try: body except Exception as e: handler(e)] *)
Definition st_try_except_Exception {A : Type} (body : St A) (handler : Exn -> St A)
  : St A :=
  fun s =>
    match body s with
    | (Raised e, s') => if is_Exception e then handler e s' else (Raised e, s')
    | r => r
    end.
End StateMonad.
Arguments St : clear implicits.

Declare Scope st_scope.
Delimit Scope st_scope with st.
Notation "'let!' x ':=' e 'in' k" := (st_bind e (fun x => k))
  (at level 10, x name, e at level 100, k at level 200, only parsing) : st_scope.
Notation "'do!' e 'in' k" := (st_bind e (fun _ => k))
  (at level 10, e at level 100, k at level 200, only parsing) : st_scope.

(** ** dummy_client.py: DummyJobClient *)

Definition fake_data : gmap string string :=
  list_to_map
    [("model_generation_job", "data/model.webp");
     ("mask_job", "data/mask.webp");
     ("tryon_job", "data/tryon.webp")].

Definition fake_time_waiting : gmap string Z :=
  list_to_map
    [("model_generation_job", 125);
     ("mask_job", 7);
     ("tryon_job", 45)].

(** The only attribute [__init__] sets. *)
Record DummyJobClient : Type := mkDummyJobClient {
  dummy_job_type : string
}.

(** [DummyJobClient.__init__(self, server_url, job_type, max_timeout)] *)
Definition DummyJobClient_init (server_url job_type : string) (max_timeout : Z)
  : Exc DummyJobClient :=
  match fake_data !! job_type with
  | None => Err (mkExn AssertionError ("Invalid job type: " +:+ job_type))
  | Some _ => Ok (mkDummyJobClient job_type)
  end.

(** [d[key]] on a dictionary with string keys *)
Definition dict_getitem {V : Type} (d : gmap string V) (key : string) : Exc V :=
  match d !! key with
  | Some v => Ok v
  | None => Err (mkExn (LibraryException "KeyError") key)
  end.

(** What [raise Exception("Failed to run the job")] raises: the class
    [Exception] itself, recorded by its name. *)
Definition dummy_failure : Exn :=
  mkExn (LibraryException "Exception") "Failed to run the job".

Section Dummy.
Context {Image Ndarray Float : Type} (lib : Lib Image Ndarray).
Local Open Scope st_scope.

Local Abbreviation Value := (PyVal Image Ndarray).

(** The random generator: what its [n]-th call returns if that call is
    [random.uniform(0.5, 1.5)], and whether its [n]-th call, if it is
    [random.random()], returns a number below 0.1.  [Float] stands for the
    floating-point numbers; the client only multiplies one and sleeps for the
    product, which the trace records by its two factors. *)
Record Random : Type := mkRandom {
  random_uniform : nat -> Float;
  random_below_tenth : nat -> bool
}.

Inductive DummyEvent : Type :=
| DummyLog (level : LogLevel) (msg : LogMsg Image Ndarray)
| DummySleep (seconds : Z)
| DummyWait (base : Z) (factor : Float).

Record DummyState : Type := mkDummyState {
  dummy_trace : list DummyEvent;
  dummy_draws : nat
}.

Definition dummy_emit (ev : DummyEvent) : St DummyState unit :=
  fun s => (Returned tt, mkDummyState (dummy_trace s ++ [ev]) (dummy_draws s)).

(** [random.uniform(0.5, 1.5)] *)
Definition draw_uniform (rng : Random) : St DummyState Float :=
  fun s =>
    (Returned (random_uniform rng (dummy_draws s)),
     mkDummyState (dummy_trace s) (Datatypes.S (dummy_draws s))).

(** [random.random() < 0.1] *)
Definition draw_below_tenth (rng : Random) : St DummyState bool :=
  fun s =>
    (Returned (random_below_tenth rng (dummy_draws s)),
     mkDummyState (dummy_trace s) (Datatypes.S (dummy_draws s))).

(** The body of the [try] block of [DummyJobClient.run_job]. *)
Definition dummy_run_job_try (rng : Random) (self : DummyJobClient) (attempt : Z)
  : St DummyState (LoopControl Value) :=
  do! dummy_emit (DummyLog INFO (LogSendingRequest (attempt + 1))) in
  let! base := st_lift (dict_getitem fake_time_waiting (dummy_job_type self)) in
  let! factor := draw_uniform rng in
  let! failed := draw_below_tenth rng in
  if failed then st_raise dummy_failure
  else
    do! dummy_emit (DummyWait base factor) in
    let! path := st_lift (dict_getitem fake_data (dummy_job_type self)) in
    let! result_img := st_lift (Image_open_path lib path) in
    do! dummy_emit (DummyLog INFO LogTimeTaken) in
    st_ret (LoopReturn (VImage result_img)).

(** The [except Exception as e] block. *)
Definition dummy_run_job_except (retry : Z) (attempt : Z) (e : Exn)
  : St DummyState (LoopControl Value) :=
  do! dummy_emit (DummyLog ERROR (LogAttemptFailed (attempt + 1) e)) in
  let attempt := attempt + 1 in
  if attempt <? retry then
    do! dummy_emit (DummyLog INFO LogRetrying) in
    do! dummy_emit (DummySleep 2) in
    st_ret (LoopContinue attempt)
  else
    do! dummy_emit (DummyLog ERROR LogAllFailed) in
    st_raise e.

Fixpoint dummy_run_job_loop (fuel : nat) (rng : Random) (self : DummyJobClient)
  (retry : Z) (attempt : Z) : St DummyState Value :=
  if attempt <? retry then
    match fuel with
    | O => st_out_of_fuel
    | Datatypes.S fuel' =>
        let! ctl :=
          st_try_except_Exception
            (dummy_run_job_try rng self attempt)
            (dummy_run_job_except retry attempt) in
        match ctl with
        | LoopReturn result_img => st_ret result_img
        | LoopContinue attempt' => dummy_run_job_loop fuel' rng self retry attempt'
        end
    end
  else st_ret VNone.

(** [DummyJobClient.run_job(self, input_data, retry)]; the input is not
    looked at. *)
Definition dummy_run_job (rng : Random) (self : DummyJobClient)
  (input_data : gmap string Value) (retry : Z) : St DummyState Value :=
  let attempt := 0 in
  dummy_run_job_loop (Z.to_nat retry) rng self retry attempt.

(** The retry sleeps and the job waits of a trace. *)
Definition dummy_sleeps (tr : list DummyEvent) : list Z :=
  omap (fun ev => match ev with DummySleep s => Some s | _ => None end) tr.

Definition dummy_waits (tr : list DummyEvent) : list (Z * Float) :=
  omap (fun ev => match ev with DummyWait b f => Some (b, f) | _ => None end) tr.
End Dummy.
Arguments Random : clear implicits.
Arguments DummyEvent : clear implicits.
Arguments DummyState : clear implicits.

(** ** s3.py: transfers *)

(** The parts of a [urllib.parse.ParseResult] the code reads. *)
Record ParseResult : Type := mkParseResult {
  uri_scheme : string;
  uri_netloc : string;
  uri_path : string
}.

(** [s.lstrip("/")] *)
Fixpoint lstrip_slash (s : string) : string :=
  match s with
  | EmptyString => EmptyString
  | String c rest => if Ascii.eqb c "/"%char then lstrip_slash rest else s
  end.

(** The pure library functions of [s3.py]. *)
Record S3Lib (Image : Type) : Type := mkS3Lib {
  (** [urlparse(uri)] *)
  urlparse : string -> Exc ParseResult;
  (** [os.path.basename(p)] *)
  os_path_basename : string -> string;
  (** [os.path.splitext(p)] *)
  os_path_splitext : string -> string * string;
  (** [os.path.join(a, b)] *)
  os_path_join : string -> string -> string;
  (** [image.format] *)
  Image_format : Image -> option string;
  (** [image.verify()] *)
  Image_verify : Image -> Exc unit;
  (** [buffer = BytesIO(); image.save(buffer, format=fmt)], the buffer's bytes *)
  Image_save_as : Image -> string -> Exc bytes
}.
Arguments urlparse {Image} _ _.
Arguments os_path_basename {Image} _ _.
Arguments os_path_splitext {Image} _ _.
Arguments os_path_join {Image} _ _ _.
Arguments Image_format {Image} _ _.
Arguments Image_verify {Image} _ _.
Arguments Image_save_as {Image} _ _ _.

(** The file system and the object store: what each call of one invocation
    returns or raises.  [Client] stands for boto3's S3 clients. *)
Record S3World (Client : Type) : Type := mkS3World {
  (** [os.makedirs(folder, exist_ok=True)] *)
  os_makedirs : string -> Exc unit;
  (** [os.path.exists(p)] *)
  os_path_exists : string -> bool;
  (** [boto3.client("s3")] *)
  boto3_client : Exc Client;
  (** [client.download_file(bucket, key, local_path)] *)
  s3_download_file : Client -> string -> string -> string -> Exc unit;
  (** [client.upload_file(local_path, bucket, key)] *)
  s3_upload_file : Client -> string -> string -> string -> Exc unit;
  (** [client.download_fileobj(bucket, key, buffer)], the bytes written *)
  s3_download_fileobj : Client -> string -> string -> Exc bytes;
  (** [client.upload_fileobj(buffer, bucket, key)] *)
  s3_upload_fileobj : Client -> bytes -> string -> string -> Exc unit
}.
Arguments os_makedirs {Client} _ _.
Arguments os_path_exists {Client} _ _.
Arguments boto3_client {Client} _.
Arguments s3_download_file {Client} _ _ _ _ _.
Arguments s3_upload_file {Client} _ _ _ _ _.
Arguments s3_download_fileobj {Client} _ _ _ _.
Arguments s3_upload_fileobj {Client} _ _ _ _ _.

(** The error lines of [s3.py]. *)
Inductive S3LogMsg : Type :=
| S3LogDownloadError (uri : string) (e : Exn)
| S3LogUploadError (local_path : string) (e : Exn)
| S3LogUploadImageError (s3_uri : string) (e : Exn).

Section S3.
Context {Image Ndarray Client : Type}.
Context (lib : Lib Image Ndarray) (s3lib : S3Lib Image) (world : S3World Client).
Local Open Scope st_scope.

Inductive S3Event : Type :=
| S3MakeDirs (folder : string)
| S3CreateClient
| S3DownloadFile (c : Client) (bucket key local_path : string)
| S3UploadFile (c : Client) (local_path bucket key : string)
| S3DownloadFileobj (c : Client) (bucket key : string)
| S3UploadFileobj (c : Client) (data : bytes) (bucket key : string)
| S3Log (msg : S3LogMsg).

Local Abbreviation S3M := (St (list S3Event)).

(** A call on the world: it is recorded, then returns or raises. *)
Definition s3_call {A : Type} (ev : S3Event) (result : Exc A) : S3M A :=
  fun tr =>
    match result with
    | Ok a => (Returned a, tr ++ [ev])
    | Err e => (Raised e, tr ++ [ev])
    end.

Definition s3_logger_error (msg : S3LogMsg) : S3M unit :=
  fun tr => (Returned tt, tr ++ [S3Log msg]).

(** [if s3_client is None: s3_client = boto3.client("s3")] *)
Definition s3_client_or_new (s3_client : option Client) : S3M Client :=
  match s3_client with
  | None => s3_call S3CreateClient (boto3_client world)
  | Some c => st_ret c
  end.

Definition invalid_s3_uri (uri : string) : Exn :=
  mkExn ValueError ("Invalid S3 URI: " +:+ uri).

Definition download_file (uri output_folder : string) (s3_client : option Client)
  (new_name : option string) : S3M (string * string) :=
  let! parsed_uri := st_lift (urlparse s3lib uri) in
  if negb (String.eqb (uri_scheme parsed_uri) "s3") then st_raise (invalid_s3_uri uri)
  else
    do! s3_call (S3MakeDirs output_folder) (os_makedirs world output_folder) in
    let local_path :=
      match new_name with
      | Some new_name =>
          let extension :=
            snd (os_path_splitext s3lib (os_path_basename s3lib (uri_path parsed_uri))) in
          os_path_join s3lib output_folder (new_name +:+ extension)
      | None =>
          os_path_join s3lib output_folder (os_path_basename s3lib (uri_path parsed_uri))
      end in
    if os_path_exists world local_path then st_ret (local_path, "skipped")
    else
      let! s3_client := s3_client_or_new s3_client in
      st_try_except_Exception
        (let bucket_name := uri_netloc parsed_uri in
         let key := lstrip_slash (uri_path parsed_uri) in
         do! s3_call (S3DownloadFile s3_client bucket_name key local_path)
               (s3_download_file world s3_client bucket_name key local_path) in
         st_ret (local_path, "success"))
        (fun e =>
           do! s3_logger_error (S3LogDownloadError uri e) in
           st_ret (local_path, "fail")).

Definition upload_file (local_path s3_uri : string) (s3_client : option Client)
  : S3M (string * string) :=
  let! parsed_uri := st_lift (urlparse s3lib s3_uri) in
  if negb (String.eqb (uri_scheme parsed_uri) "s3") then st_raise (invalid_s3_uri s3_uri)
  else
    let! s3_client := s3_client_or_new s3_client in
    st_try_except_Exception
      (let bucket_name := uri_netloc parsed_uri in
       let key := lstrip_slash (uri_path parsed_uri) in
       do! s3_call (S3UploadFile s3_client local_path bucket_name key)
             (s3_upload_file world s3_client local_path bucket_name key) in
       st_ret (s3_uri, "success"))
      (fun e =>
         do! s3_logger_error (S3LogUploadError local_path e) in
         st_ret (s3_uri, "fail")).

Definition download_image (uri : string) (s3_client : option Client)
  : S3M (option Image * string) :=
  let! parsed_uri := st_lift (urlparse s3lib uri) in
  if negb (String.eqb (uri_scheme parsed_uri) "s3") then st_raise (invalid_s3_uri uri)
  else
    let! s3_client := s3_client_or_new s3_client in
    st_try_except_Exception
      (let bucket_name := uri_netloc parsed_uri in
       let key := lstrip_slash (uri_path parsed_uri) in
       let extension := lower (snd (os_path_splitext s3lib key)) in
       if negb (bool_decide (extension ∈ ExtensionsEnum_values)) then
         st_raise (mkExn ValueError ("Invalid file extension: " +:+ extension))
       else
         let! buffer :=
           s3_call (S3DownloadFileobj s3_client bucket_name key)
             (s3_download_fileobj world s3_client bucket_name key) in
         let! image := st_lift (Image_open_bytes lib buffer) in
         do! st_lift (Image_verify s3lib image) in
         st_ret (Some image, "success"))
      (fun e =>
         do! s3_logger_error (S3LogDownloadError uri e) in
         st_ret (None, "fail")).

Definition upload_image (image : Image) (s3_uri : string) (s3_client : option Client)
  : S3M (string * string) :=
  let! parsed_uri := st_lift (urlparse s3lib s3_uri) in
  if negb (String.eqb (uri_scheme parsed_uri) "s3") then st_raise (invalid_s3_uri s3_uri)
  else
    let! s3_client := s3_client_or_new s3_client in
    st_try_except_Exception
      (let bucket_name := uri_netloc parsed_uri in
       let key := lstrip_slash (uri_path parsed_uri) in
       match Image_format s3lib image with
       | None => st_raise (mkExn ValueError "Invalid image format: None")
       | Some format =>
           if negb (bool_decide ("." +:+ lower format ∈ ExtensionsEnum_values)) then
             st_raise (mkExn ValueError ("Invalid image format: " +:+ format))
           else
             let! buffer := st_lift (Image_save_as s3lib image format) in
             do! s3_call (S3UploadFileobj s3_client buffer bucket_name key)
                   (s3_upload_fileobj world s3_client buffer bucket_name key) in
             st_ret (s3_uri, "success")
       end)
      (fun e =>
         do! s3_logger_error (S3LogUploadImageError s3_uri e) in
         st_ret (s3_uri, "fail")).

(** The calls on the object store in a trace. *)
Definition is_transfer (ev : S3Event) : bool :=
  match ev with
  | S3DownloadFile _ _ _ _ | S3UploadFile _ _ _ _
  | S3DownloadFileobj _ _ _ | S3UploadFileobj _ _ _ _ => true
  | _ => false
  end.
End S3.
Arguments S3Event : clear implicits.

(** ** A concrete world for the dummy client *)
Module DummySample.

(** Numbers drawn by the generator, as fractions [(numerator, denominator)]. *)
Definition Float : Type := (Z * Z)%type.

(** The image files of [fake_data] are on disk; nothing else is. *)
Definition lib : Lib Sample.Image Sample.Ndarray :=
  {| os_path_isfile := fun path => bool_decide (path ∈ (map_to_list fake_data).*2);
     Image_open_path := fun path =>
       if bool_decide (path ∈ (map_to_list fake_data).*2) then Ok Sample.pixel_png
       else Err (Sample.no_such_file path);
     Image_open_bytes := Sample.open_png;
     Image_save_png := fun img => Ok img;
     Image_fromarray_uint8 := fun a => match (a : Empty_set) with end;
     np_array := fun _ => Err (mkExn TypeError "no arrays in this world");
     b64decode := Sample.sample_b64decode;
     json_dumps := Sample.sample_json_dumps |}.

(** A generator whose every [random()] is below 0.1, and one whose [random()]
    is below 0.1 on its first two calls only; [uniform] gives 3/4. *)
Definition unlucky : Random Float :=
  {| random_uniform := fun _ => (3, 4); random_below_tenth := fun _ => true |}.

Definition lucky_at_third : Random Float :=
  {| random_uniform := fun _ => (3, 4);
     random_below_tenth := fun n => (n <? 4)%nat |}.

Definition initial : DummyState Sample.Image Sample.Ndarray Float :=
  mkDummyState [] 0.

End DummySample.

(** ** A concrete world for the transfers *)
Module S3Sample.

Definition Client : Type := unit.

Definition chars (s : string) : list ascii := list_ascii_of_string s.
Definition unchars (l : list ascii) : string := string_of_list_ascii l.

Definition is_char (c : ascii) (x : ascii) : bool := Ascii.eqb x c.

(** The characters before the first [c], and those from it on. *)
Fixpoint break_at (c : ascii) (l : list ascii) : list ascii * list ascii :=
  match l with
  | [] => ([], [])
  | x :: rest =>
      if is_char c x then ([], l)
      else let '(before, from) := break_at c rest in (x :: before, from)
  end.

(** URIs of the form [scheme://netloc/path]; anything else has no scheme. *)
Definition sample_urlparse (uri : string) : Exc ParseResult :=
  let '(scheme, rest) := break_at ":" (chars uri) in
  match rest with
  | ":"%char :: "/"%char :: "/"%char :: rest' =>
      let '(netloc, path) := break_at "/" rest' in
      Ok (mkParseResult (lower (unchars scheme)) (unchars netloc) (unchars path))
  | _ => Ok (mkParseResult "" "" uri)
  end.

(** The part of a path after its last slash. *)
Definition sample_basename (p : string) : string :=
  unchars (rev (fst (break_at "/" (rev (chars p))))).

(** A path split before the last dot of its base name, if that dot is not
    the base name's first character. *)
Definition sample_splitext (p : string) : string * string :=
  let base := rev (chars (sample_basename p)) in
  let '(ext, rest) := break_at "." base in
  match rest with
  | _ :: _ :: _ =>
      (unchars (firstn (length (chars p) - S (length ext)) (chars p)),
       unchars ("."%char :: rev ext))
  | _ => (p, "")
  end.

Definition sample_join (a b : string) : string := a +:+ "/" +:+ b.

Definition s3lib : S3Lib Sample.Image :=
  {| urlparse := sample_urlparse;
     os_path_basename := sample_basename;
     os_path_splitext := sample_splitext;
     os_path_join := sample_join;
     Image_format := fun img =>
       if Sample.bytes_eqb (firstn 8 img) Sample.png_signature then Some "PNG" else None;
     Image_verify := fun _ => Ok tt;
     Image_save_as := fun img _ => Ok img |}.

(** A store that holds a PNG under every key, and a disk on which only
    [out/shirt.png] exists. *)
Definition world : S3World Client :=
  {| os_makedirs := fun _ => Ok tt;
     os_path_exists := fun p => String.eqb p "out/shirt.png";
     boto3_client := Ok tt;
     s3_download_file := fun _ _ _ _ => Ok tt;
     s3_upload_file := fun _ _ _ _ => Ok tt;
     s3_download_fileobj := fun _ _ _ => Ok Sample.pixel_png;
     s3_upload_fileobj := fun _ _ _ _ => Ok tt |}.

Definition shirt_uri : string := "s3://wardrobe/garments/shirt.png".
Definition web_uri : string := "https://example.com/shirt.png".
Definition notes_uri : string := "s3://wardrobe/notes.pdf".

End S3Sample.

(** ** More of the concrete world of the client *)

(** An input that has every required field of the mask class, with [None]
    where the image should be. *)
Definition null_image_input : gmap string Sample.Value :=
  <["model_img" := VNone]> Sample.mask_input.

(** The same input with the image as a base64 string, which the converter
    first looks up on the disk. *)
Definition string_image_input : gmap string Sample.Value :=
  <["model_img" := VStr Sample.pixel_b64]> Sample.mask_input.

(** A disk that changes: the first run of the encoder finds no file, every
    later run finds a file under any name, which does not open as an image. *)
Definition changing_disk (n : nat) : Lib Sample.Image Sample.Ndarray :=
  {| os_path_isfile := fun _ => negb (Nat.eqb n 0);
     Image_open_path := fun path =>
       Err (mkExn (LibraryException "PIL.UnidentifiedImageError") path);
     Image_open_bytes := Sample.open_png;
     Image_save_png := fun img => Ok img;
     Image_fromarray_uint8 := fun a => match (a : Empty_set) with end;
     np_array := fun _ => Err (mkExn TypeError "no arrays in this world");
     b64decode := Sample.sample_b64decode;
     json_dumps := Sample.sample_json_dumps |}.

(** An object store that refuses every call. *)
Definition access_denied : Exn :=
  mkExn (LibraryException "botocore.exceptions.ClientError") "Access Denied".

Definition broken_store : S3World S3Sample.Client :=
  {| os_makedirs := fun _ => Ok tt;
     os_path_exists := fun _ => false;
     boto3_client := Ok tt;
     s3_download_file := fun _ _ _ _ => Err access_denied;
     s3_upload_file := fun _ _ _ _ => Err access_denied;
     s3_download_fileobj := fun _ _ _ => Err access_denied;
     s3_upload_fileobj := fun _ _ _ _ => Err access_denied |}.


(** A server that answers 500, then refuses the connection, then answers 200
    with a result. *)
Definition flaky_server : Net Sample.Image Sample.Ndarray :=
  Sample.scripted_server
    [Ok Sample.error_500; Err Sample.connection_refused; Ok Sample.result_200].

(** Control-C: an exception outside the [Exception] class. *)
Definition keyboard_interrupt : Exn :=
  mkExn (LibraryBaseException "KeyboardInterrupt") "".

(** A 502 whose [json()] is interrupted from the keyboard. *)
Definition interrupted_502 : Response Sample.Image Sample.Ndarray :=
  {| status_code := 502; text := "Bad Gateway"; json := Err keyboard_interrupt |}.

(** * Properties *)

Section Properties.
Context {Image Ndarray : Type} (lib : Lib Image Ndarray) (net : Net Image Ndarray).

Local Abbreviation Value := (PyVal Image Ndarray).
Local Abbreviation Tr := (Trace Image Ndarray).

(** ** The trace *)

Lemma count_posts_app (tr1 tr2 : Tr) :
  count_posts (tr1 ++ tr2) = (count_posts tr1 + count_posts tr2)%nat.
Proof. unfold count_posts. now rewrite List.filter_app, length_app. Qed.

Lemma actions_app (tr1 tr2 : Tr) : actions (tr1 ++ tr2) = actions tr1 ++ actions tr2.
Proof. unfold actions. apply List.filter_app. Qed.

Lemma count_sleeps_app (tr1 tr2 : Tr) :
  count_sleeps (tr1 ++ tr2) = (count_sleeps tr1 + count_sleeps tr2)%nat.
Proof. unfold count_sleeps. now rewrite List.filter_app, length_app. Qed.

Lemma envelope_log_is_log (r : Response Image Ndarray) :
  Forall (fun ev => is_log ev = true) (envelope_log r).
Proof.
  unfold envelope_log.
  destruct (json r) as [v|e]; [destruct v|]; repeat constructor.
  destruct (assoc "stack_trace" kvs); repeat constructor.
Qed.

Lemma validator_log_is_log (r : Response Image Ndarray) :
  Forall (fun ev => is_log ev = true) (validator_log r).
Proof.
  unfold validator_log. destruct (status_code r =? 200); [constructor|].
  apply envelope_log_is_log.
Qed.

Lemma filter_logs_out (P : Event Image Ndarray -> bool) (l : Tr) :
  (forall ev, is_log ev = true -> P ev = false) ->
  Forall (fun ev => is_log ev = true) l ->
  List.filter P l = [].
Proof.
  intros HP Hl. induction Hl as [|ev l Hev _ IH]; [reflexivity|].
  simpl. now rewrite (HP ev Hev).
Qed.

Lemma count_posts_cycle cls attempt req (o : Exc (Response Image Ndarray)) :
  count_posts (cycle_events lib cls attempt req o) = 1%nat.
Proof.
  unfold cycle_events, count_posts. simpl. f_equal.
  destruct o as [r|e]; [|reflexivity].
  rewrite List.filter_app, length_app.
  rewrite (filter_logs_out is_post (validator_log r)).
  - destruct (process_outputs lib cls r); reflexivity.
  - now intros [] H.
  - apply validator_log_is_log.
Qed.

Lemma actions_cycle cls attempt req (o : Exc (Response Image Ndarray)) :
  actions (cycle_events lib cls attempt req o) = [EvPost req].
Proof.
  unfold cycle_events, actions. simpl. f_equal.
  destruct o as [r|e]; [|reflexivity].
  rewrite List.filter_app.
  rewrite (filter_logs_out (fun ev => negb (is_log ev)) (validator_log r)).
  - destruct (process_outputs lib cls r); reflexivity.
  - now intros ev ->.
  - apply validator_log_is_log.
Qed.

(** ** The validator *)

(** [_check_response] returns normally on every response; all it does is
    append the log lines of [validator_log]. *)
Lemma check_response_spec self (r : Response Image Ndarray) (tr : Tr) :
  _check_response self r tr = (Returned tt, tr ++ validator_log r).
Proof.
  unfold _check_response, validator_log.
  destruct (status_code r =? 200); simpl.
  - unfold ret. now rewrite app_nil_r.
  - unfold envelope_log, try_except, bind, lift.
    destruct (json r) as [v|e]; [destruct v|]; simpl; try reflexivity.
    unfold logger_error, emit; simpl.
    destruct (assoc "stack_trace" kvs); simpl; [|reflexivity].
    now rewrite <- !app_assoc.
Qed.

(** ** One attempt *)

(** The [try] block of [run_job]: its outcome is the outcome of the cycle, and
    the status code plays no part in it. *)
Lemma run_job_try_spec self files form_data attempt (tr : Tr) :
  let req := run_job_request self files form_data in
  let o := net_post net (count_posts tr) req in
  run_job_try lib net self files form_data attempt tr
  = (match cycle_result lib (job_class self) o with
     | Ok v => Returned (LoopReturn v)
     | Err e => Raised e
     end,
     tr ++ cycle_events lib (job_class self) attempt req o).
Proof.
  intros req o. unfold run_job_try, bind at 1, logger_info, emit.
  unfold bind at 1, requests_post.
  rewrite count_posts_app, Nat.add_0_r.
  fold (run_job_request self files form_data). fold req. fold o.
  unfold cycle_result, cycle_events.
  destruct o as [r|e]; simpl.
  - unfold bind at 1. rewrite check_response_spec.
    unfold bind, lift.
    destruct (process_outputs lib (job_class self) r) as [v|e]; simpl;
      unfold ret, raise, logger_info, emit; simpl;
      rewrite <- ?app_assoc, ?app_nil_r; reflexivity.
  - now rewrite <- !app_assoc.
Qed.

(** ** The loop *)

(** One iteration of the loop of [run_job], entered with [attempt < retry]. *)
Lemma run_job_loop_step fuel self files form_data retry attempt (tr : Tr) :
  attempt < retry ->
  let req := run_job_request self files form_data in
  let o := net_post net (count_posts tr) req in
  let tr1 := tr ++ cycle_events lib (job_class self) attempt req o in
  run_job_loop lib net (S fuel) self files form_data retry attempt tr
  = match cycle_result lib (job_class self) o with
    | Ok v => (Returned v, tr1)
    | Err e =>
        if is_Exception e then
          if attempt + 1 <? retry then
            run_job_loop lib net fuel self files form_data retry (attempt + 1)
              (tr1 ++ [EvLog ERROR (LogAttemptFailed (attempt + 1) e);
                       EvLog INFO LogRetrying; EvSleep 2])
          else
            (Raised e,
             tr1 ++ [EvLog ERROR (LogAttemptFailed (attempt + 1) e);
                     EvLog ERROR LogAllFailed])
        else (Raised e, tr1)
    end.
Proof.
  intros Hlt req o tr1. simpl.
  apply Z.ltb_lt in Hlt. rewrite Hlt.
  unfold bind at 1, try_except_Exception.
  rewrite run_job_try_spec. fold req o tr1.
  destruct (cycle_result lib (job_class self) o) as [v|e]; [reflexivity|].
  destruct (is_Exception e); [|reflexivity].
  unfold run_job_except, bind at 1, logger_error, emit.
  destruct (attempt + 1 <? retry).
  - unfold bind, logger_info, time_sleep, emit, ret.
    now rewrite <- !app_assoc.
  - unfold bind, raise. now rewrite <- !app_assoc.
Qed.

(** The loop is not entered when the budget is used up (or was never positive). *)
Lemma run_job_loop_exit fuel self files form_data retry attempt (tr : Tr) :
  retry <= attempt ->
  run_job_loop lib net fuel self files form_data retry attempt tr = (Returned VNone, tr).
Proof.
  intros Hle. apply Z.ltb_ge in Hle.
  destruct fuel; simpl; now rewrite Hle.
Qed.

(** The bound on the iterations is never the reason the loop stops. *)
Lemma run_job_loop_fuel_suffices fuel self files form_data retry :
  forall attempt (tr : Tr),
    (Z.to_nat (retry - attempt) <= fuel)%nat ->
    fst (run_job_loop lib net fuel self files form_data retry attempt tr) <> OutOfFuel.
Proof.
  induction fuel as [|fuel IH]; intros attempt tr Hfuel.
  - rewrite run_job_loop_exit by lia. discriminate.
  - destruct (Z_lt_le_dec attempt retry) as [Hlt|Hle].
    + rewrite run_job_loop_step by exact Hlt.
      destruct (cycle_result _ _ _) as [v|e]; [discriminate|].
      destruct (is_Exception e); [|discriminate].
      destruct (attempt + 1 <? retry); [|discriminate].
      apply IH. lia.
    + rewrite run_job_loop_exit by lia. discriminate.
Qed.

Theorem run_job_fuel_suffices self (input_data : gmap string Value) retry (tr : Tr) :
  fst (run_job lib net self input_data retry tr) <> OutOfFuel.
Proof.
  unfold run_job, bind, lift.
  destruct (process_inputs lib (job_class self) input_data) as [[files form_data]|e];
    [|discriminate].
  simpl. apply run_job_loop_fuel_suffices. lia.
Qed.

(** When every remaining cycle fails, the loop uses up the budget: one POST
    per attempt, a two-second sleep between consecutive attempts, and the error
    of the last cycle at the end. *)
Lemma run_job_loop_all_fail self files form_data retry (errs : nat -> Exn) :
  let req := run_job_request self files form_data in
  forall (n fuel : nat) attempt (tr : Tr),
    (n <= fuel)%nat ->
    retry - attempt = Z.of_nat (S n) ->
    (forall j, (j <= n)%nat ->
       cycle_result lib (job_class self) (net_post net (count_posts tr + j) req)
       = Err (errs (count_posts tr + j)%nat)
       /\ is_Exception (errs (count_posts tr + j)%nat) = true) ->
    exists tr',
      run_job_loop lib net (S fuel) self files form_data retry attempt tr
      = (Raised (errs (count_posts tr + n)%nat), tr ++ tr')
      /\ actions tr' = retry_schedule req (S n).
Proof.
  intros req n. induction n as [|n IH]; intros fuel attempt tr Hfuel Hrem Hfail.
  - rewrite run_job_loop_step by lia. fold req.
    destruct (Hfail 0%nat (Nat.le_refl _)) as [Hc He].
    rewrite Nat.add_0_r in Hc, He. rewrite Hc, He, Nat.add_0_r.
    replace (attempt + 1 <? retry) with false by (symmetry; apply Z.ltb_ge; lia).
    eexists. split.
    + rewrite <- app_assoc. reflexivity.
    + rewrite actions_app, actions_cycle. reflexivity.
  - destruct fuel as [|fuel]; [lia|].
    rewrite run_job_loop_step by lia. fold req.
    destruct (Hfail 0%nat (Nat.le_0_l _)) as [Hc He].
    rewrite Nat.add_0_r in Hc, He. rewrite Hc, He.
    replace (attempt + 1 <? retry) with true by (symmetry; apply Z.ltb_lt; lia).
    set (tr2 := (tr ++ cycle_events lib (job_class self) attempt req _) ++ _).
    assert (Hposts : count_posts tr2 = S (count_posts tr)).
    { unfold tr2. rewrite !count_posts_app, count_posts_cycle.
      unfold count_posts. simpl. lia. }
    destruct (IH fuel (attempt + 1) tr2) as (tr' & Hrun & Hact).
    + lia.
    + lia.
    + intros j Hj. rewrite Hposts.
      replace (S (count_posts tr) + j)%nat with (count_posts tr + S j)%nat by lia.
      apply Hfail. lia.
    + rewrite Hrun, Hposts.
      replace (S (count_posts tr) + n)%nat with (count_posts tr + S n)%nat by lia.
      eexists. split.
      * unfold tr2. rewrite <- !app_assoc. reflexivity.
      * rewrite !actions_app, actions_cycle, Hact. reflexivity.
Qed.

Lemma count_posts_backoff (req : PostRequest) n :
  count_posts (backoff (Image:=Image) (Ndarray:=Ndarray) req n) = n.
Proof. induction n as [|n IH]; [reflexivity|]. unfold count_posts in *. simpl. now rewrite IH. Qed.

Lemma count_sleeps_backoff (req : PostRequest) n :
  count_sleeps (backoff (Image:=Image) (Ndarray:=Ndarray) req n) = n.
Proof. induction n as [|n IH]; [reflexivity|]. unfold count_sleeps in *. simpl. now rewrite IH. Qed.

Lemma last_backoff (req : PostRequest) n (d : Event Image Ndarray) :
  List.last (backoff req n) d = match n with O => d | S _ => EvPost req end.
Proof.
  induction n as [|n IH]; [reflexivity|].
  destruct n as [|n]; [reflexivity|].
  simpl in *. exact IH.
Qed.

Lemma last_retry_schedule (req : PostRequest) n (d : Event Image Ndarray) :
  List.last (retry_schedule req (S n)) d = EvPost req.
Proof.
  unfold retry_schedule. destruct n as [|n]; [reflexivity|].
  pose proof (last_backoff req (S n) d) as H. simpl in *. exact H.
Qed.

Lemma count_posts_actions (tr : Tr) : count_posts (actions tr) = count_posts tr.
Proof.
  unfold count_posts, actions.
  induction tr as [|ev tr IH]; [reflexivity|].
  destruct ev; simpl; now rewrite ?IH.
Qed.

Lemma count_sleeps_actions (tr : Tr) : count_sleeps (actions tr) = count_sleeps tr.
Proof.
  unfold count_sleeps, actions.
  induction tr as [|ev tr IH]; [reflexivity|].
  destruct ev; simpl; now rewrite ?IH.
Qed.

Lemma posted_requests_app (tr1 tr2 : Tr) :
  posted_requests (tr1 ++ tr2) = posted_requests tr1 ++ posted_requests tr2.
Proof.
  induction tr1 as [|ev tr1 IH]; [reflexivity|].
  destruct ev; simpl; now rewrite IH.
Qed.

Lemma posted_requests_logs (l : Tr) :
  Forall (fun ev => is_log ev = true) l -> posted_requests l = [].
Proof.
  induction 1 as [|ev l Hev _ IH]; [reflexivity|].
  destruct ev; try discriminate. exact IH.
Qed.

Lemma posted_requests_cycle cls attempt req (o : Exc (Response Image Ndarray)) :
  posted_requests (cycle_events lib cls attempt req o) = [req].
Proof.
  unfold cycle_events. simpl. f_equal.
  destruct o as [r|e]; [|reflexivity].
  rewrite posted_requests_app, posted_requests_logs by apply validator_log_is_log.
  destruct (process_outputs lib cls r); reflexivity.
Qed.

(** ** The encoders *)

Lemma py_in_false key (input_data : gmap string Value) :
  py_in key input_data = false <-> input_data !! key = None.
Proof. unfold py_in. destruct (input_data !! key); split; congruence. Qed.

(** An input that lacks a required field is refused by the assertion on the
    first such field, whatever the libraries would do with the rest. *)
Lemma process_inputs_first_missing cls (input_data : gmap string Value) field :
  first_missing cls input_data = Some field ->
  process_inputs lib cls input_data
  = Err (mkExn AssertionError (missing_message cls field)).
Proof.
  unfold first_missing, process_inputs.
  destruct cls; simpl;
    unfold FaceJob_process_inputs, HandsFixJob_process_inputs, MaskJob_process_inputs,
      ModelGenerationJob_process_inputs, RetouchJob_process_inputs,
      TryOnJob_process_inputs;
    repeat match goal with
      | |- context [py_in ?k input_data] =>
          destruct (py_in k input_data); simpl;
          [| intros [= <-]; reflexivity]
      end;
    discriminate.
Qed.

Lemma first_missing_exists cls (input_data : gmap string Value) field :
  In field (required_fields cls) ->
  input_data !! field = None ->
  exists field',
    first_missing cls input_data = Some field'
    /\ In field' (required_fields cls)
    /\ input_data !! field' = None.
Proof.
  intros Hin Hnone. unfold first_missing.
  destruct (List.find _ _) as [field'|] eqn:Hfind.
  - apply List.find_some in Hfind as [Hin' Hm].
    exists field'. repeat split; [exact Hin'|].
    apply py_in_false. now destruct (py_in field' input_data).
  - apply List.find_none with (x := field) in Hfind; [|exact Hin].
    apply py_in_false in Hnone. rewrite Hnone in Hfind. discriminate.
Qed.

Lemma missing_message_names_field cls field :
  names_field (missing_message cls field) field.
Proof.
  exists "Missing ".
  exists (" key in " +:+ match cls with
                         | FaceJob | ModelGenerationJob => "input data"
                         | _ => "input_data"
                         end).
  reflexivity.
Qed.

(** A failure of the encoder is the result of [run_job], with nothing sent,
    slept or logged. *)
Lemma run_job_encoder_failure self (input_data : gmap string Value) retry (tr : Tr) e :
  process_inputs lib (job_class self) input_data = Err e ->
  run_job lib net self input_data retry tr = (Raised e, tr).
Proof. intros H. unfold run_job, bind. now rewrite H. Qed.

Lemma run_job_encoded self (input_data : gmap string Value) retry (tr : Tr) files form_data :
  process_inputs lib (job_class self) input_data = Ok (files, form_data) ->
  run_job lib net self input_data retry tr
  = run_job_loop lib net (Z.to_nat retry) self files form_data retry 0 tr.
Proof. intros H. unfold run_job, bind. now rewrite H. Qed.

(** ** The retry controller *)

(** C3. For every attempt budget [retry >= 1] and every input the encoder
    accepts: if each of the [retry] send/validate/decode cycles fails, then
    [run_job] makes exactly [retry] POSTs, sleeps two seconds between
    consecutive POSTs and not after the last one ([retry - 1] sleeps), and
    raises the error of the last cycle. *)
Theorem run_job_exhausts_budget self (input_data : gmap string Value) retry
  files form_data (errs : nat -> Exn) :
  1 <= retry ->
  process_inputs lib (job_class self) input_data = Ok (files, form_data) ->
  (forall k, (k < Z.to_nat retry)%nat ->
     cycle_result lib (job_class self)
       (net_post net k (run_job_request self files form_data)) = Err (errs k)
     /\ is_Exception (errs k) = true) ->
  exists tr : Tr,
    run_job lib net self input_data retry [] = (Raised (errs (Z.to_nat retry - 1)%nat), tr)
    /\ actions tr = retry_schedule (run_job_request self files form_data) (Z.to_nat retry)
    /\ count_posts tr = Z.to_nat retry
    /\ count_sleeps tr = (Z.to_nat retry - 1)%nat
    /\ List.last (actions tr) (EvSleep 2) = EvPost (run_job_request self files form_data).
Proof.
  intros Hretry Henc Hfail.
  destruct (Z.to_nat retry) as [|n] eqn:Hn; [lia|].
  destruct (run_job_loop_all_fail self files form_data retry errs n n 0 [])
    as (tr & Hrun & Hact).
  - lia.
  - lia.
  - intros j Hj. change (count_posts [] + j)%nat with j. apply Hfail. lia.
  - exists tr. rewrite (run_job_encoded _ _ _ _ _ _ Henc), Hn.
    change (count_posts [] + n)%nat with n in Hrun. rewrite app_nil_l in Hrun. replace (S n - 1)%nat with n by lia.
    split; [exact Hrun|]. split; [exact Hact|].
    rewrite <- count_posts_actions, <- count_sleeps_actions, Hact.
    split; [|split].
    + unfold retry_schedule. change (EvPost ?r :: ?l) with ([EvPost r] ++ l).
      rewrite count_posts_app, count_posts_backoff. reflexivity.
    + unfold retry_schedule. change (EvPost ?r :: ?l) with ([EvPost r] ++ l).
      rewrite count_sleeps_app, count_sleeps_backoff. reflexivity.
    + apply last_retry_schedule.
Qed.

(** C4. For each of the six job classes and every input that lacks one of the
    class's required fields, [run_job] raises an [AssertionError] whose message
    names a required field the input lacks (the first one in the order of the
    checks); the trace is left as it was: no POST, no retry, no sleep. *)
Theorem missing_required_field_fails_fast self (input_data : gmap string Value)
  retry (tr : Tr) field :
  In field (required_fields (job_class self)) ->
  input_data !! field = None ->
  exists field' msg,
    first_missing (job_class self) input_data = Some field'
    /\ In field' (required_fields (job_class self))
    /\ input_data !! field' = None
    /\ names_field msg field'
    /\ run_job lib net self input_data retry tr = (Raised (mkExn AssertionError msg), tr).
Proof.
  intros Hin Hnone.
  destruct (first_missing_exists _ _ _ Hin Hnone) as (field' & Hfirst & Hin' & Hnone').
  exists field', (missing_message (job_class self) field').
  repeat split; try assumption.
  - apply missing_message_names_field.
  - apply run_job_encoder_failure. now apply process_inputs_first_missing.
Qed.

(** C10 (as amended). For every input and every [retry <= 0], [run_job]
    still runs the encoder and ends as the encoder does: an input that lacks
    a required field raises the assertion's error, and any other failure of
    the encoder (an image that does not convert, metadata that does not
    serialize) raises the encoder's exception; when the encoder accepts the
    input, [run_job] sends nothing, does not sleep and returns [None] without
    raising.  The trace is untouched in every case. *)
Theorem run_job_without_budget self (input_data : gmap string Value) retry (tr : Tr) :
  retry <= 0 ->
  run_job lib net self input_data retry tr
  = match process_inputs lib (job_class self) input_data with
    | Ok _ => (Returned VNone, tr)
    | Err e => (Raised e, tr)
    end
  /\ match first_missing (job_class self) input_data with
     | Some field =>
         run_job lib net self input_data retry tr
         = (Raised (mkExn AssertionError (missing_message (job_class self) field)), tr)
     | None => True
     end.
Proof.
  intros Hretry. split.
  - destruct (process_inputs lib (job_class self) input_data)
      as [[files form_data]|e] eqn:Henc.
    + rewrite (run_job_encoded _ _ _ _ _ _ Henc).
      apply run_job_loop_exit. lia.
    + now apply run_job_encoder_failure.
  - destruct (first_missing (job_class self) input_data) as [field|] eqn:Hfirst;
      [|exact I].
    apply run_job_encoder_failure. now apply process_inputs_first_missing.
Qed.

(** ** The validator and the decoder *)

(** C2. The status code does not classify a response.  Whatever the status of
    the response to the first POST, if its body is a JSON object whose
    [result] field base64-decodes to bytes that open as an image, [run_job]
    returns that image after this one POST.  And for every response, of any
    status, the attempt ends exactly as the decoding step [process_outputs]
    ends on it: with its value, or with its exception. *)
Theorem status_code_does_not_classify self (input_data : gmap string Value) retry
  files form_data (r : Response Image Ndarray) body result decoded img :
  1 <= retry ->
  process_inputs lib (job_class self) input_data = Ok (files, form_data) ->
  net_post net 0 (run_job_request self files form_data) = Ok r ->
  json r = Ok (VDict body) ->
  assoc "result" body = Some result ->
  b64decode lib result = Ok decoded ->
  Image_open_bytes lib decoded = Ok img ->
  (exists tr : Tr,
     run_job lib net self input_data retry [] = (Returned (VImage img), tr)
     /\ count_posts tr = 1%nat /\ count_sleeps tr = 0%nat)
  /\ (forall attempt (tr : Tr) (r' : Response Image Ndarray),
        net_post net (count_posts tr) (run_job_request self files form_data) = Ok r' ->
        fst (run_job_try lib net self files form_data attempt tr)
        = match process_outputs lib (job_class self) r' with
          | Ok v => Returned (LoopReturn v)
          | Err e => Raised e
          end).
Proof.
  intros Hretry Henc Hpost Hjson Hres Hdec Himg. split.
  - assert (Hout : process_outputs lib (job_class self) r = Ok (VImage img)).
    { destruct (job_class self); simpl;
        unfold FaceJob_process_outputs, HandsFixJob_process_outputs,
          MaskJob_process_outputs, ModelGenerationJob_process_outputs,
          RetouchJob_process_outputs, TryOnJob_process_outputs;
        rewrite Hjson; simpl; rewrite Hres; simpl; rewrite Hdec; simpl;
        unfold from_bytes; simpl; now rewrite Himg. }
    rewrite (run_job_encoded _ _ _ _ _ _ Henc).
    destruct (Z.to_nat retry) as [|n] eqn:Hn; [lia|].
    rewrite run_job_loop_step by lia.
    change (count_posts []) with 0%nat. rewrite Hpost. simpl cycle_result.
    rewrite Hout. eexists. split; [reflexivity|].
    rewrite app_nil_l. split.
    + apply count_posts_cycle.
    + rewrite <- count_sleeps_actions, actions_cycle. reflexivity.
  - intros attempt tr r' Hpost'.
    rewrite run_job_try_spec. simpl. now rewrite Hpost'.
Qed.

(** C1 (as amended). A response whose status code is not 200 does not fail the
    attempt by itself: [_check_response] returns normally on it and only logs
    its error envelope (the [error] field, and the [stack_trace] field if
    present, when the body is a JSON object; the raw body text otherwise).
    The attempt fails when the decoding step fails on the response, with the
    decoder's exception; when all [retry] attempts fail in this way, the
    exception raised to the caller is the one of the last attempt. *)
Theorem non_200_is_logged_then_decoded self (input_data : gmap string Value) retry
  files form_data (resps : nat -> Response Image Ndarray) (errs : nat -> Exn) :
  1 <= retry ->
  process_inputs lib (job_class self) input_data = Ok (files, form_data) ->
  (forall k, (k < Z.to_nat retry)%nat ->
     net_post net k (run_job_request self files form_data) = Ok (resps k)
     /\ status_code (resps k) <> 200
     /\ process_outputs lib (job_class self) (resps k) = Err (errs k)
     /\ is_Exception (errs k) = true) ->
  (forall k (tr : Tr), (k < Z.to_nat retry)%nat ->
     _check_response self (resps k) tr = (Returned tt, tr ++ envelope_log (resps k)))
  /\ (forall k attempt (tr : Tr), (k < Z.to_nat retry)%nat -> count_posts tr = k ->
        fst (run_job_try lib net self files form_data attempt tr) = Raised (errs k))
  /\ exists tr : Tr,
       run_job lib net self input_data retry []
       = (Raised (errs (Z.to_nat retry - 1)%nat), tr)
       /\ count_posts tr = Z.to_nat retry.
Proof.
  intros Hretry Henc Hresp. split; [|split].
  - intros k tr Hk. destruct (Hresp k Hk) as (_ & Hstatus & _).
    rewrite check_response_spec. unfold validator_log.
    apply Z.eqb_neq in Hstatus. now rewrite Hstatus.
  - intros k attempt tr Hk Hposts. destruct (Hresp k Hk) as (Hpost & _ & Hout & _).
    rewrite run_job_try_spec. simpl. rewrite Hposts, Hpost. simpl. now rewrite Hout.
  - destruct (Z.to_nat retry) as [|n] eqn:Hn; [lia|].
    destruct (run_job_loop_all_fail self files form_data retry errs n n 0 [])
      as (tr & Hrun & Hact).
    + lia.
    + lia.
    + intros j Hj. change (count_posts [] + j)%nat with j.
      destruct (Hresp j) as (Hpost & _ & Hout & Hexc); [lia|].
      rewrite Hpost. simpl. now split.
    + exists tr. rewrite (run_job_encoded _ _ _ _ _ _ Henc), Hn.
      change (count_posts [] + n)%nat with n in Hrun. rewrite app_nil_l in Hrun.
      replace (S n - 1)%nat with n by lia. split; [exact Hrun|].
      rewrite <- count_posts_actions, Hact.
      unfold retry_schedule. change (EvPost ?r :: ?l) with ([EvPost r] ++ l).
      rewrite count_posts_app, count_posts_backoff. reflexivity.
Qed.

(** ** The payload *)

(** C6. For the try-on class, an input whose [mask_img] is [None] passes the
    encoder whenever its other fields do: given a category and model and cloth
    images that convert, the payload has the three attachment slots, and the
    slot [mask_img_buffer] is there with file name and content type and with
    [None] as its content.  The null mask is never what makes the encoder
    fail: if it fails on such an input, it fails with any mask in its place. *)
Theorem tryon_null_mask_keeps_slot (input_data : gmap string Value) :
  input_data !! "mask_img" = Some VNone ->
  (forall category model_v cloth_v model cloth dumped,
     input_data !! "category" = Some category ->
     input_data !! "model_img" = Some model_v ->
     to_bytes lib model_v = Ok model ->
     input_data !! "cloth_img" = Some cloth_v ->
     to_bytes lib cloth_v = Ok cloth ->
     json_dumps lib (VDict [("category", category)]) = Ok dumped ->
     process_inputs lib TryOnJob input_data
     = Ok (Some [("model_img_buffer", mkFilePart "model.png" (Some model) "image/png");
                 ("cloth_img_buffer", mkFilePart "cloth.png" (Some cloth) "image/png");
                 ("mask_img_buffer", mkFilePart "mask.png" None "image/png")],
           Some [("generation_data", dumped)]))
  /\ (forall e mask,
        process_inputs lib TryOnJob input_data = Err e ->
        exists e',
          process_inputs lib TryOnJob (<["mask_img" := mask]> input_data) = Err e').
Proof.
  intros Hmask. split.
  - intros category model_v cloth_v model cloth dumped Hcat Hmodel Hmb Hcloth Hcb Hdump.
    unfold process_inputs, TryOnJob_process_inputs, py_in, dict_get.
    rewrite Hcat, Hmodel, Hcloth, Hmask. simpl.
    rewrite Hmb. simpl. rewrite Hcb. simpl. now rewrite Hdump.
  - intros e mask.
    unfold process_inputs, TryOnJob_process_inputs, py_in, dict_get.
    rewrite Hmask, lookup_insert_eq, !lookup_insert_ne by discriminate.
    destruct (input_data !! "category") as [category|]; simpl; [|eauto].
    destruct (input_data !! "model_img") as [model_v|]; simpl; [|eauto].
    destruct (input_data !! "cloth_img") as [cloth_v|]; simpl; [|eauto].
    destruct (to_bytes lib model_v) as [model|e1]; simpl; [|eauto].
    destruct (to_bytes lib cloth_v) as [cloth|e2]; simpl; [|eauto].
    destruct (json_dumps lib (VDict [("category", category)])) as [dumped|e3]; simpl;
      [discriminate|].
    intros _.
    destruct mask; unfold to_bytes, except_all_raise, exc_bind; simpl;
      repeat match goal with
        | |- exists _, Err _ = Err _ => eexists; reflexivity
        | |- context [match ?x with _ => _ end] => destruct x; simpl
        end.
Qed.

(** C7 (as amended). For every job class other than the hands-fix class and
    every input the encoder accepts, the form data of the payload is exactly
    one field, named [generation_data], holding the JSON encoding of an object
    whose keys are the class's metadata fields and whose values are the
    input's values for them ([None] for an absent seed).  For the hands-fix
    class the form data is [None]: the payload has no such field. *)
Theorem generation_data_field cls (input_data : gmap string Value) files form_data :
  process_inputs lib cls input_data = Ok (files, form_data) ->
  match cls with
  | HandsFixJob => form_data = None
  | _ =>
      exists obj dumped,
        form_data = Some [("generation_data", dumped)]
        /\ json_dumps lib (VDict obj) = Ok dumped
        /\ Permutation (List.map fst obj) (metadata_fields cls)
        /\ Forall (fun kv => snd kv = dict_get input_data (fst kv) VNone) obj
  end.
Proof.
  intros H. unfold process_inputs in H.
  destruct cls;
    unfold FaceJob_process_inputs, HandsFixJob_process_inputs, MaskJob_process_inputs,
      ModelGenerationJob_process_inputs, RetouchJob_process_inputs,
      TryOnJob_process_inputs, exc_bind in H;
    repeat match type of H with
      | context [py_assert ?c ?m] =>
          destruct (py_assert c m); cbn beta iota in H; [|discriminate H]
      | context [to_bytes lib ?v] =>
          destruct (to_bytes lib v); cbn beta iota in H; [|discriminate H]
      | context [match ?m with VNone => _ | _ => _ end] =>
          destruct m; cbn beta iota in H; try discriminate H
      end;
    try match type of H with
      | context [json_dumps lib ?v] =>
          destruct (json_dumps lib v) as [dumped|] eqn:Hdump; cbn beta iota in H;
          [|discriminate H]
      end;
    injection H as <- <-;
    try reflexivity;
    (eexists; exists dumped; split; [reflexivity|]; split; [exact Hdump|]; split;
     [first [reflexivity | apply perm_swap] | repeat constructor]).
Qed.

(** Every request [run_job] posts is the one built from the payload encoded
    before the loop; its timeout is the literal 600. *)
Lemma run_job_loop_requests self files form_data retry :
  forall fuel attempt (tr : Tr),
  exists tr' : Tr,
    snd (run_job_loop lib net fuel self files form_data retry attempt tr) = tr ++ tr'
    /\ Forall (fun req => req = run_job_request self files form_data)
         (posted_requests tr').
Proof.
  induction fuel as [|fuel IH]; intros attempt tr.
  - exists []. rewrite app_nil_r. split; [|constructor].
    simpl. now destruct (attempt <? retry).
  - destruct (Z_lt_le_dec attempt retry) as [Hlt|Hle].
    + rewrite run_job_loop_step by exact Hlt.
      set (req := run_job_request self files form_data).
      set (ev := cycle_events lib (job_class self) attempt req _).
      assert (Hev : Forall (fun r => r = req) (posted_requests ev)).
      { unfold ev. rewrite posted_requests_cycle. now repeat constructor. }
      destruct (cycle_result _ _ _) as [v|e]; [now exists ev|].
      destruct (is_Exception e); [|now exists ev].
      destruct (attempt + 1 <? retry).
      * destruct (IH (attempt + 1)
                    ((tr ++ ev) ++ [EvLog ERROR (LogAttemptFailed (attempt + 1) e);
                                    EvLog INFO LogRetrying; EvSleep 2]))
          as (tr' & Hsnd & Hreq).
        rewrite Hsnd.
        exists (ev ++ [EvLog ERROR (LogAttemptFailed (attempt + 1) e);
                       EvLog INFO LogRetrying; EvSleep 2] ++ tr').
        split; [now rewrite <- !app_assoc|].
        rewrite !posted_requests_app.
        apply Forall_app; split; [exact Hev|].
        apply Forall_app; split; [constructor|exact Hreq].
      * exists (ev ++ [EvLog ERROR (LogAttemptFailed (attempt + 1) e);
                       EvLog ERROR LogAllFailed]).
        split; [simpl; now rewrite <- !app_assoc|].
        rewrite posted_requests_app.
        apply Forall_app; split; [exact Hev|constructor].
    + rewrite run_job_loop_exit by exact Hle. exists []. rewrite app_nil_r.
      split; [reflexivity|constructor].
Qed.

Lemma run_job_post_timeouts self (input_data : gmap string Value) retry :
  Forall (fun req => post_timeout req = 600)
    (posted_requests (snd (run_job lib net self input_data retry []))).
Proof.
  unfold run_job, bind, lift.
  destruct (process_inputs lib (job_class self) input_data) as [[files form_data]|e];
    [|constructor].
  simpl.
  destruct (run_job_loop_requests self files form_data retry (Z.to_nat retry) 0 [])
    as (tr' & -> & Hreq).
  simpl. eapply Forall_impl; [exact Hreq|]. now intros req ->.
Qed.

(** ** The health probe *)

(** C8. [_check_health] always returns a boolean and never raises; it returns
    [True] exactly when the GET to [server_url/health] (timeout 5 seconds)
    returns a response with status 200, and [False] when the GET returns
    another status or raises anything at all. *)
Theorem check_health_never_raises self (tr : Tr) :
  let url := server_url self +:+ "/health" in
  exists b : bool,
    _check_health net self tr = (Returned b, tr ++ [EvGet url 5])
    /\ (b = true <->
        exists r, net_get net (count_gets tr) url 5 = Ok r /\ status_code r = 200).
Proof.
  intros url. unfold _check_health, try_except, bind, requests_get. fold url.
  destruct (net_get net (count_gets tr) url 5) as [r|e]; simpl.
  - exists (status_code r =? 200). split; [reflexivity|].
    rewrite Z.eqb_eq. split.
    + intros H. now exists r.
    + now intros (r' & [= <-] & H).
  - exists false. split; [reflexivity|].
    split; [discriminate|]. now intros (r & [=] & _).
Qed.

(** ** Encoding once or at every attempt *)



End Properties.

(** * The properties on the concrete world *)

(** A server that answers 500, then refuses the connection, then answers 200
    with a result: with three attempts [run_job] returns the image after three
    POSTs and two sleeps. *)
Example run_job_succeeds_on_third_attempt :
  let out :=
    run_job Sample.lib
      (Sample.scripted_server
         [Ok Sample.error_500; Err Sample.connection_refused; Ok Sample.result_200])
      (Sample.gpu_client MaskJob "mask_job") Sample.mask_input 3 [] in
  fst out = Returned (VImage Sample.pixel_png)
  /\ actions (snd out)
     = retry_schedule
         (run_job_request (Sample.gpu_client MaskJob "mask_job")
            Sample.mask_files Sample.mask_form) 3.
Proof. split; vm_compute; reflexivity. Qed.

(** The same server with two attempts: the connection error of the second
    attempt reaches the caller. *)
Example run_job_gives_up_after_two_attempts :
  fst (run_job Sample.lib
         (Sample.scripted_server
            [Ok Sample.error_500; Err Sample.connection_refused; Ok Sample.result_200])
         (Sample.gpu_client MaskJob "mask_job") Sample.mask_input 2 [])
  = Raised Sample.connection_refused.
Proof. vm_compute. reflexivity. Qed.

(** A 502 whose body is not JSON: the validator logs the raw text and
    returns; the decoder then raises the JSON error. *)
Example check_response_logs_raw_body :
  _check_response (Sample.gpu_client MaskJob "mask_job")
    (Sample.text_response 502 "Bad Gateway") []
  = (Returned tt, [EvLog ERROR (LogRawResponse "Bad Gateway")]).
Proof. reflexivity. Qed.

(** An unknown job type is refused by the constructor. *)
Example unknown_job_type_is_refused :
  JobClient_init "http://gpu:8000" "upscale_job" default_max_timeout
  = Err (mkExn AssertionError "Invalid job type: upscale_job").
Proof. vm_compute. reflexivity. Qed.

(** C3 at the mask client, three attempts, a server that always answers 500
    with an error body. *)
Lemma run_job_exhausts_budget_witness :
  exists tr,
    run_job Sample.lib Sample.failing_server (Sample.gpu_client MaskJob "mask_job")
      Sample.mask_input 3 []
    = (Raised Sample.decode_none_error, tr)
    /\ actions tr
       = retry_schedule
           (run_job_request (Sample.gpu_client MaskJob "mask_job")
              Sample.mask_files Sample.mask_form) 3
    /\ count_posts tr = 3%nat
    /\ count_sleeps tr = 2%nat
    /\ List.last (actions tr) (EvSleep 2)
       = EvPost (run_job_request (Sample.gpu_client MaskJob "mask_job")
                   Sample.mask_files Sample.mask_form).
Proof.
  apply (run_job_exhausts_budget Sample.lib Sample.failing_server
           (Sample.gpu_client MaskJob "mask_job") Sample.mask_input 3
           Sample.mask_files Sample.mask_form (fun _ => Sample.decode_none_error)).
  - lia.
  - vm_compute. reflexivity.
  - intros k _. vm_compute. split; reflexivity.
Defined.

(** C4 at the try-on client and an input without [cloth_img] and [mask_img]. *)
Lemma missing_required_field_fails_fast_witness :
  exists field' msg,
    first_missing TryOnJob Sample.mask_input = Some field'
    /\ In field' (required_fields TryOnJob)
    /\ Sample.mask_input !! field' = None
    /\ names_field msg field'
    /\ run_job Sample.lib Sample.healthy_server (Sample.gpu_client TryOnJob "tryon_job")
         Sample.mask_input 3 []
       = (Raised (mkExn AssertionError msg), []).
Proof.
  apply (missing_required_field_fails_fast Sample.lib Sample.healthy_server
           (Sample.gpu_client TryOnJob "tryon_job") Sample.mask_input 3 [] "mask_img").
  - simpl. tauto.
  - vm_compute. reflexivity.
Defined.

(** The claim C10 fails: an input that has every required field passes the
    assertions, and with [retry = 0] the call still raises, from the
    converter. *)
Lemma validated_input_can_raise_without_budget :
  first_missing MaskJob null_image_input = None
  /\ run_job Sample.lib Sample.healthy_server (Sample.gpu_client MaskJob "mask_job")
       null_image_input 0 []
     = (Raised (mkExn ValueError "Unsupported input type: <class 'NoneType'>"), []).
Proof. split; vm_compute; reflexivity. Qed.

(** C10 (as amended) at [retry = 0] and at a negative budget: an accepted
    input, an input without its fields, and an input whose image does not
    convert. *)
Lemma run_job_without_budget_witness :
  run_job Sample.lib Sample.healthy_server (Sample.gpu_client MaskJob "mask_job")
    Sample.mask_input 0 []
  = (Returned VNone, [])
  /\ run_job Sample.lib Sample.healthy_server (Sample.gpu_client MaskJob "mask_job")
       ∅ (-2) []
     = (Raised (mkExn AssertionError "Missing 'category' key in input_data"), [])
  /\ run_job Sample.lib Sample.healthy_server (Sample.gpu_client MaskJob "mask_job")
       null_image_input 0 []
     = (Raised (mkExn ValueError "Unsupported input type: <class 'NoneType'>"), []).
Proof.
  split; [|split].
  - destruct (run_job_without_budget Sample.lib Sample.healthy_server
                (Sample.gpu_client MaskJob "mask_job") Sample.mask_input 0 [])
      as [Hrun _]; [lia|].
    rewrite Hrun. vm_compute. reflexivity.
  - destruct (run_job_without_budget Sample.lib Sample.healthy_server
                (Sample.gpu_client MaskJob "mask_job") ∅ (-2) [])
      as [_ Hmissing]; [lia|].
    exact Hmissing.
  - destruct (run_job_without_budget Sample.lib Sample.healthy_server
                (Sample.gpu_client MaskJob "mask_job") null_image_input 0 [])
      as [Hrun _]; [lia|].
    rewrite Hrun. vm_compute. reflexivity.
Defined.

(** C2 at a server that answers 500 with a result in the body. *)
Lemma status_code_does_not_classify_witness :
  status_code Sample.result_500 = 500
  /\ exists tr,
       run_job Sample.lib Sample.odd_server (Sample.gpu_client MaskJob "mask_job")
         Sample.mask_input 3 []
       = (Returned (VImage Sample.pixel_png), tr)
       /\ count_posts tr = 1%nat /\ count_sleeps tr = 0%nat.
Proof.
  split; [reflexivity|].
  apply (status_code_does_not_classify Sample.lib Sample.odd_server
           (Sample.gpu_client MaskJob "mask_job") Sample.mask_input 3
           Sample.mask_files Sample.mask_form Sample.result_500
           [("result", VStr Sample.pixel_b64)] (VStr Sample.pixel_b64)
           Sample.pixel_png Sample.pixel_png).
  - lia.
  - vm_compute. reflexivity.
  - reflexivity.
  - reflexivity.
  - reflexivity.
  - vm_compute. reflexivity.
  - vm_compute. reflexivity.
Defined.

(** The claim C1 fails: the server answers 500, the body carries a result,
    and [run_job] returns the image; no attempt fails and nothing is raised. *)
Lemma non_200_response_can_succeed :
  net_post Sample.odd_server 0
    (run_job_request (Sample.gpu_client MaskJob "mask_job")
       Sample.mask_files Sample.mask_form)
  = Ok Sample.result_500
  /\ status_code Sample.result_500 <> 200
  /\ fst (run_job Sample.lib Sample.odd_server (Sample.gpu_client MaskJob "mask_job")
            Sample.mask_input 1 [])
     = Returned (VImage Sample.pixel_png).
Proof.
  split; [reflexivity|]. split; [discriminate|]. vm_compute. reflexivity.
Qed.

(** C1 (as amended) at a server that always answers 500 with an error body,
    two attempts. *)
Lemma non_200_is_logged_then_decoded_witness :
  (forall k (tr : Trace Sample.Image Sample.Ndarray), (k < 2)%nat ->
     _check_response (Sample.gpu_client MaskJob "mask_job") Sample.error_500 tr
     = (Returned tt, tr ++ envelope_log Sample.error_500))
  /\ exists tr,
       run_job Sample.lib Sample.failing_server (Sample.gpu_client MaskJob "mask_job")
         Sample.mask_input 2 []
       = (Raised Sample.decode_none_error, tr)
       /\ count_posts tr = 2%nat.
Proof.
  destruct (non_200_is_logged_then_decoded Sample.lib Sample.failing_server
              (Sample.gpu_client MaskJob "mask_job") Sample.mask_input 2
              Sample.mask_files Sample.mask_form
              (fun _ => Sample.error_500) (fun _ => Sample.decode_none_error))
    as (Hlog & _ & Hrun).
  - lia.
  - vm_compute. reflexivity.
  - intros k _. repeat split; try reflexivity. discriminate.
  - split; [exact Hlog | exact Hrun].
Defined.

(** C6 at an input with a null mask. *)
Lemma tryon_null_mask_keeps_slot_witness :
  process_inputs Sample.lib TryOnJob Sample.tryon_input_null_mask
  = Ok (Some [("model_img_buffer",
               mkFilePart "model.png" (Some Sample.pixel_png) "image/png");
              ("cloth_img_buffer",
               mkFilePart "cloth.png" (Some Sample.pixel_png) "image/png");
              ("mask_img_buffer", mkFilePart "mask.png" None "image/png")],
        Sample.mask_form).
Proof.
  destruct (tryon_null_mask_keeps_slot Sample.lib Sample.tryon_input_null_mask)
    as [Hslot _].
  - vm_compute. reflexivity.
  - apply (Hslot (VStr "upper_body") (VBytes Sample.pixel_png) (VStr Sample.pixel_b64)).
    + vm_compute. reflexivity.
    + vm_compute. reflexivity.
    + reflexivity.
    + vm_compute. reflexivity.
    + vm_compute. reflexivity.
    + vm_compute. reflexivity.
Defined.

(** The claim C7 fails at the hands-fix class: the input is valid and the
    payload has no form data at all, hence no [generation_data] field. *)
Lemma handsfix_payload_has_no_generation_data :
  process_inputs Sample.lib HandsFixJob Sample.handsfix_input
  = Ok (Sample.mask_files, None).
Proof. vm_compute. reflexivity. Qed.

(** C7 (as amended) at the mask class. *)
Lemma generation_data_field_witness :
  exists obj dumped,
    Sample.mask_form = Some [("generation_data", dumped)]
    /\ json_dumps Sample.lib (VDict obj) = Ok dumped
    /\ Permutation (List.map fst obj) (metadata_fields MaskJob)
    /\ Forall (fun kv => snd kv = dict_get Sample.mask_input (fst kv) VNone) obj.
Proof.
  apply (generation_data_field Sample.lib MaskJob Sample.mask_input
           Sample.mask_files Sample.mask_form).
  vm_compute. reflexivity.
Defined.


(** The run of the witness makes its three attempts. *)
Example reencoding_witness_makes_three_attempts :
  count_posts
    (snd (run_job_reference (changing_disk 0) Sample.failing_server changing_disk
            (Sample.gpu_client MaskJob "mask_job") Sample.mask_input 3 []))
  = 3%nat.
Proof. vm_compute. reflexivity. Qed.

(** Determinism is needed.  With the image as a string, the first run of
    the encoder decodes it as base64 and the second finds a file of that name
    that does not open: the reference behaviour raises before it sends
    anything, the implementation makes its three attempts. *)
Example reencoding_is_observable_on_a_changing_disk :
  count_posts
    (snd (run_job_reference (changing_disk 0) Sample.failing_server changing_disk
            (Sample.gpu_client MaskJob "mask_job") string_image_input 3 []))
  = 0%nat
  /\ count_posts
       (snd (run_job (changing_disk 0) Sample.failing_server
               (Sample.gpu_client MaskJob "mask_job") string_image_input 3 []))
     = 3%nat.
Proof. split; vm_compute; reflexivity. Qed.

(** C5. A client constructed with [max_timeout = 30] still posts with a
    timeout of 600 seconds: [run_job] passes the literal and never reads
    [self.max_timeout]. *)
Theorem post_timeout_is_not_max_timeout :
  JobClient_init "http://gpu:8000" "mask_job" 30 = Ok (Sample.mask_client 30)
  /\ max_timeout (Sample.mask_client 30) = 30
  /\ List.map post_timeout
       (posted_requests
          (snd (run_job Sample.lib Sample.healthy_server (Sample.mask_client 30)
                  Sample.mask_input 3 [])))
     = [600].
Proof. repeat split; vm_compute; reflexivity. Qed.

(** * Further properties of the client, the encoders and the converters *)

Section MoreProperties.
Context {Image Ndarray : Type} (lib : Lib Image Ndarray) (net : Net Image Ndarray).

Local Abbreviation Value := (PyVal Image Ndarray).
Local Abbreviation Tr := (Trace Image Ndarray).

(** ** The retry loop on an arbitrary server *)

(** [k] failing cycles, with budget left after them, bring the loop to its
    [k]-th iteration: a POST and a sleep for each. *)
Lemma run_job_loop_failed_prefix self files form_data retry (errs : nat -> Exn) :
  let req := run_job_request self files form_data in
  forall (k fuel : nat) attempt (tr : Tr),
    attempt + Z.of_nat k < retry ->
    (forall j, (j < k)%nat ->
       cycle_result lib (job_class self) (net_post net (count_posts tr + j) req)
       = Err (errs (count_posts tr + j)%nat)
       /\ is_Exception (errs (count_posts tr + j)%nat) = true) ->
    exists tr' : Tr,
      run_job_loop lib net (k + fuel) self files form_data retry attempt tr
      = run_job_loop lib net fuel self files form_data retry
          (attempt + Z.of_nat k) (tr ++ tr')
      /\ actions tr' ++ [EvPost req] = retry_schedule req (S k)
      /\ count_posts tr' = k.
Proof.
  intros req k. induction k as [|k IH]; intros fuel attempt tr Hlt Hfail.
  - exists []. rewrite app_nil_r, Z.add_0_r. repeat split; reflexivity.
  - change (S k + fuel)%nat with (S (k + fuel)).
    rewrite (run_job_loop_step lib net) by lia. fold req.
    destruct (Hfail 0%nat) as [Hc He]; [lia|].
    rewrite Nat.add_0_r in Hc, He. rewrite Hc, He.
    replace (attempt + 1 <? retry) with true by (symmetry; apply Z.ltb_lt; lia).
    set (tr2 := (tr ++ cycle_events lib (job_class self) attempt req _) ++ _).
    assert (Hposts : count_posts tr2 = S (count_posts tr)).
    { unfold tr2. rewrite !(count_posts_app), (count_posts_cycle lib).
      unfold count_posts. simpl. lia. }
    destruct (IH fuel (attempt + 1) tr2) as (tr' & Hrun & Hact & Hcount).
    + lia.
    + intros j Hj. rewrite Hposts.
      replace (S (count_posts tr) + j)%nat with (count_posts tr + S j)%nat by lia.
      apply Hfail. lia.
    + exists (cycle_events lib (job_class self) attempt req
                (net_post net (count_posts tr) req)
              ++ [EvLog ERROR (LogAttemptFailed (attempt + 1) (errs (count_posts tr)));
                  EvLog INFO LogRetrying; EvSleep 2] ++ tr').
      split; [|split].
      * rewrite Hrun. unfold tr2. rewrite <- !app_assoc.
        now replace (attempt + 1 + Z.of_nat k) with (attempt + Z.of_nat (S k)) by lia.
      * rewrite !actions_app, (actions_cycle lib), <- !app_assoc, Hact. reflexivity.
      * rewrite !count_posts_app, (count_posts_cycle lib), Hcount.
        unfold count_posts. simpl. lia.
Qed.

(** X2. If the first [k] cycles fail with exceptions, the next one succeeds
    with value [v] and [k < retry], then [run_job] returns [v] after exactly
    [k + 1] POSTs, with a two-second sleep between consecutive POSTs. *)
Theorem run_job_succeeds_after_failures self (input_data : gmap string Value) retry
  files form_data (errs : nat -> Exn) (k : nat) (v : Value) :
  process_inputs lib (job_class self) input_data = Ok (files, form_data) ->
  Z.of_nat k < retry ->
  (forall j, (j < k)%nat ->
     cycle_result lib (job_class self)
       (net_post net j (run_job_request self files form_data)) = Err (errs j)
     /\ is_Exception (errs j) = true) ->
  cycle_result lib (job_class self)
    (net_post net k (run_job_request self files form_data)) = Ok v ->
  exists tr : Tr,
    run_job lib net self input_data retry [] = (Returned v, tr)
    /\ actions tr = retry_schedule (run_job_request self files form_data) (S k)
    /\ count_posts tr = S k
    /\ count_sleeps tr = k.
Proof.
  intros Henc Hk Hfail Hok.
  rewrite (run_job_encoded lib net _ _ _ _ _ _ Henc).
  set (req := run_job_request self files form_data) in *.
  destruct (run_job_loop_failed_prefix self files form_data retry errs k
              (Z.to_nat retry - k) 0 [])
    as (tr' & Hrun & Hact & Hcount).
  - lia.
  - intros j Hj. change (count_posts [] + j)%nat with j. now apply Hfail.
  - replace (k + (Z.to_nat retry - k))%nat with (Z.to_nat retry) in Hrun by lia.
    rewrite Hrun, app_nil_l.
    destruct (Z.to_nat retry - k)%nat as [|fuel] eqn:Hfuel; [lia|].
    rewrite (run_job_loop_step lib net) by lia. fold req.
    rewrite Hcount, Hok.
    eexists. split; [reflexivity|].
    assert (Hall : actions (tr' ++ cycle_events lib (job_class self)
                                     (0 + Z.of_nat k) req (net_post net k req))
                   = retry_schedule req (S k)).
    { now rewrite actions_app, (actions_cycle lib). }
    split; [exact Hall|].
    rewrite <- count_posts_actions, <- count_sleeps_actions, Hall.
    unfold retry_schedule. change (EvPost req :: ?l) with ([EvPost req] ++ l).
    rewrite count_posts_app, count_sleeps_app, count_posts_backoff, count_sleeps_backoff.
    split; reflexivity.
Qed.

(** X3. An exception that is not an instance of [Exception] (a keyboard
    interrupt, a system exit), raised by the POST of an attempt or by the
    decoding step (on a response that is 200, or whose body has parsed as
    JSON in [_check_response]), is not caught by the
    [except Exception] of [run_job]: it is raised to the caller after that
    attempt's POST, without a further sleep and without retry, however much
    budget is left.  The bare [except] of [_check_response] is different:
    whatever [response.json()] raises there on a response that is not 200,
    of any class, is swallowed; the raw body is logged and the attempt goes
    on. *)
Theorem run_job_does_not_retry_base_exceptions self (input_data : gmap string Value)
  retry files form_data (errs : nat -> Exn) (k : nat) (e : Exn) :
  process_inputs lib (job_class self) input_data = Ok (files, form_data) ->
  Z.of_nat k < retry ->
  (forall j, (j < k)%nat ->
     cycle_result lib (job_class self)
       (net_post net j (run_job_request self files form_data)) = Err (errs j)
     /\ is_Exception (errs j) = true) ->
  (net_post net k (run_job_request self files form_data) = Err e
   \/ exists r,
        net_post net k (run_job_request self files form_data) = Ok r
        /\ (status_code r = 200 \/ exists d, json r = Ok d)
        /\ process_outputs lib (job_class self) r = Err e) ->
  is_Exception e = false ->
  (exists tr : Tr,
     run_job lib net self input_data retry [] = (Raised e, tr)
     /\ count_posts tr = S k
     /\ count_sleeps tr = k
     /\ List.last (actions tr) (EvSleep 2)
        = EvPost (run_job_request self files form_data))
  /\ (forall (r : Response Image Ndarray) (e' : Exn) (tr : Tr),
        status_code r <> 200 ->
        json r = Err e' ->
        _check_response self r tr
        = (Returned tt, tr ++ [EvLog ERROR (LogRawResponse (text r))])).
Proof.
  intros Henc Hk Hfail Hraised Hbase.
  assert (Herr : cycle_result lib (job_class self)
                   (net_post net k (run_job_request self files form_data)) = Err e).
  { destruct Hraised as [Hpost|(r & Hpost & _ & Hout)]; rewrite Hpost; [reflexivity|].
    exact Hout. }
  clear Hraised. split.
  2: { intros r e' tr Hstatus Hjson. rewrite (check_response_spec _ r tr).
       unfold validator_log, envelope_log. apply Z.eqb_neq in Hstatus.
       now rewrite Hstatus, Hjson. }
  rewrite (run_job_encoded lib net _ _ _ _ _ _ Henc).
  set (req := run_job_request self files form_data) in *.
  destruct (run_job_loop_failed_prefix self files form_data retry errs k
              (Z.to_nat retry - k) 0 [])
    as (tr' & Hrun & Hact & Hcount).
  - lia.
  - intros j Hj. change (count_posts [] + j)%nat with j. now apply Hfail.
  - replace (k + (Z.to_nat retry - k))%nat with (Z.to_nat retry) in Hrun by lia.
    rewrite Hrun, app_nil_l.
    destruct (Z.to_nat retry - k)%nat as [|fuel] eqn:Hfuel; [lia|].
    rewrite (run_job_loop_step lib net) by lia. fold req.
    rewrite Hcount, Herr, Hbase.
    eexists. split; [reflexivity|].
    assert (Hall : actions (tr' ++ cycle_events lib (job_class self)
                                     (0 + Z.of_nat k) req (net_post net k req))
                   = retry_schedule req (S k)).
    { now rewrite actions_app, (actions_cycle lib). }
    rewrite <- count_posts_actions, <- count_sleeps_actions, Hall.
    unfold retry_schedule. change (EvPost req :: ?l) with ([EvPost req] ++ l).
    rewrite count_posts_app, count_sleeps_app, count_posts_backoff, count_sleeps_backoff.
    split; [reflexivity|]. split; [reflexivity|].
    apply (last_retry_schedule req k).
Qed.

(** The network calls and sleeps of the loop, whatever the server does: some
    number of POSTs within the budget, each but the first preceded by a
    two-second sleep. *)
Lemma run_job_loop_schedule self files form_data retry :
  let req := run_job_request self files form_data in
  forall fuel attempt (tr : Tr),
    (Z.to_nat (retry - attempt) <= fuel)%nat ->
    exists n : nat,
      (n <= Z.to_nat (retry - attempt))%nat
      /\ (attempt < retry -> (1 <= n)%nat)
      /\ actions (snd (run_job_loop lib net fuel self files form_data retry attempt tr))
         = actions tr ++ retry_schedule req n.
Proof.
  intros req. induction fuel as [|fuel IH]; intros attempt tr Hfuel.
  - exists 0%nat. rewrite (run_job_loop_exit lib net) by lia.
    simpl. rewrite app_nil_r. repeat split; lia.
  - destruct (Z_lt_le_dec attempt retry) as [Hlt|Hle].
    + rewrite (run_job_loop_step lib net) by exact Hlt. fold req.
      set (ev := cycle_events lib (job_class self) attempt req _).
      assert (Hev : actions (tr ++ ev) = actions tr ++ retry_schedule req 1).
      { unfold ev. now rewrite actions_app, (actions_cycle lib). }
      destruct (cycle_result _ _ _) as [v|e];
        [exists 1%nat; split; [lia|split; [lia|exact Hev]]|].
      destruct (is_Exception e);
        [|exists 1%nat; split; [lia|split; [lia|exact Hev]]].
      destruct (attempt + 1 <? retry) eqn:Hnext.
      * apply Z.ltb_lt in Hnext.
        destruct (IH (attempt + 1)
                    ((tr ++ ev) ++ [EvLog ERROR (LogAttemptFailed (attempt + 1) e);
                                    EvLog INFO LogRetrying; EvSleep 2]))
          as (n & Hn & Hpos & Hact); [lia|].
        destruct n as [|n]; [specialize (Hpos Hnext); lia|].
        exists (S (S n)). split; [lia|]. split; [lia|].
        rewrite Hact, actions_app, Hev, <- !app_assoc. reflexivity.
      * exists 1%nat. split; [lia|]. split; [lia|].
        simpl snd. rewrite actions_app, Hev, <- app_assoc. reflexivity.
    + exists 0%nat. rewrite (run_job_loop_exit lib net) by lia.
      simpl. rewrite app_nil_r. repeat split; lia.
Qed.

(** X4. Whatever the server, the libraries and the input do, the network
    calls and sleeps of one [run_job] call are: [n] POSTs of one and the same
    request, with [n] at most the attempt budget, and a sleep of exactly two
    seconds between consecutive POSTs; nothing before the first POST and
    nothing after the last. *)
Theorem run_job_stays_within_budget self (input_data : gmap string Value) retry :
  exists (n : nat) (req : PostRequest),
    (Z.of_nat n <= Z.max 0 retry)
    /\ actions (snd (run_job lib net self input_data retry [])) = retry_schedule req n
    /\ count_posts (snd (run_job lib net self input_data retry [])) = n
    /\ count_sleeps (snd (run_job lib net self input_data retry [])) = (n - 1)%nat.
Proof.
  destruct (process_inputs lib (job_class self) input_data) as [[files form_data]|e] eqn:Henc.
  - rewrite (run_job_encoded lib net _ _ _ _ _ _ Henc).
    destruct (run_job_loop_schedule self files form_data retry (Z.to_nat retry) 0 [])
      as (n & Hn & _ & Hact); [lia|].
    exists n, (run_job_request self files form_data).
    split; [lia|]. split; [exact Hact|].
    rewrite <- count_posts_actions, <- count_sleeps_actions, Hact. simpl.
    destruct n as [|n]; [split; reflexivity|].
    unfold retry_schedule. change (EvPost ?r :: ?l) with ([EvPost r] ++ l).
    rewrite count_posts_app, count_sleeps_app, count_posts_backoff, count_sleeps_backoff.
    split; [reflexivity|]. simpl. lia.
  - rewrite (run_job_encoder_failure lib net _ _ _ _ _ Henc).
    exists 0%nat, (run_job_request self None None). repeat split. lia.
Qed.

(** The decoders return an image object or raise. *)
Lemma process_outputs_returns_image cls (r : Response Image Ndarray) (v : Value) :
  process_outputs lib cls r = Ok v -> exists img, v = VImage img.
Proof.
  destruct cls; simpl;
    unfold FaceJob_process_outputs, HandsFixJob_process_outputs,
      MaskJob_process_outputs, ModelGenerationJob_process_outputs,
      RetouchJob_process_outputs, TryOnJob_process_outputs, exc_bind;
    destruct (json r) as [d|]; try discriminate;
    destruct (py_get d "result" VNone) as [res|]; try discriminate;
    destruct (b64decode lib res) as [b|]; try discriminate;
    unfold from_bytes, exc_bind; simpl;
    destruct (Image_open_bytes lib b) as [img|]; try discriminate;
    intros [= <-]; now exists img.
Qed.

Lemma run_job_loop_returns_image self files form_data retry :
  forall fuel attempt (tr : Tr) (v : Value),
    attempt < retry ->
    fst (run_job_loop lib net fuel self files form_data retry attempt tr) = Returned v ->
    exists img, v = VImage img.
Proof.
  induction fuel as [|fuel IH]; intros attempt tr v Hlt.
  - simpl. apply Z.ltb_lt in Hlt. rewrite Hlt. intros [=].
  - rewrite (run_job_loop_step lib net) by exact Hlt.
    destruct (net_post net (count_posts tr) (run_job_request self files form_data))
      as [r|e0] eqn:Hpost; unfold cycle_result; cbn beta iota.
    + destruct (process_outputs lib (job_class self) r) as [v'|e] eqn:Hout.
      * simpl. intros [= <-]. exact (process_outputs_returns_image _ _ _ Hout).
      * destruct (is_Exception e); [|simpl; intros [=]].
        destruct (attempt + 1 <? retry) eqn:Hnext; [|simpl; intros [=]].
        apply IH. now apply Z.ltb_lt.
    + destruct (is_Exception e0); [|simpl; intros [=]].
      destruct (attempt + 1 <? retry) eqn:Hnext; [|simpl; intros [=]].
      apply IH. now apply Z.ltb_lt.
Qed.

(** X5. With an attempt budget of at least one, [run_job] never returns
    [None]: it raises, or it returns an image object.  (A caller's test
    [result is None] can only fire for [retry <= 0].) *)
Theorem run_job_returns_image_or_raises self (input_data : gmap string Value) retry
  (tr : Tr) (v : Value) :
  1 <= retry ->
  fst (run_job lib net self input_data retry tr) = Returned v ->
  exists img, v = VImage img.
Proof.
  intros Hretry.
  destruct (process_inputs lib (job_class self) input_data) as [[files form_data]|e] eqn:Henc.
  - rewrite (run_job_encoded lib net _ _ _ _ _ _ Henc).
    apply run_job_loop_returns_image. lia.
  - rewrite (run_job_encoder_failure lib net _ _ _ _ _ Henc). discriminate.
Qed.
End MoreProperties.

Section EncoderProperties.
Context {Image Ndarray : Type} (lib : Lib Image Ndarray) (net : Net Image Ndarray).

Local Abbreviation Value := (PyVal Image Ndarray).
Local Abbreviation Tr := (Trace Image Ndarray).

(** ** The validator and the decoders *)

(** X6. [_check_response] returns normally on every response and only adds
    ERROR log lines to the trace: none for status 200, between one and three
    otherwise. *)
Theorem check_response_only_logs self (r : Response Image Ndarray) (tr : Tr) :
  exists logs : list (LogMsg Image Ndarray),
    _check_response self r tr = (Returned tt, tr ++ List.map (EvLog ERROR) logs)
    /\ (status_code r = 200 -> logs = [])
    /\ (status_code r <> 200 -> (1 <= length logs <= 3)%nat).
Proof.
  exists (if status_code r =? 200 then []
          else match json r with
               | Ok (VDict kvs) =>
                   LogServerError (default (VStr "Unknown error") (assoc "error" kvs))
                   :: match assoc "stack_trace" kvs with
                      | Some st => [LogStackTraceHeader; LogStackTrace st]
                      | None => []
                      end
               | _ => [LogRawResponse (text r)]
               end).
  rewrite (check_response_spec _ r tr). unfold validator_log, envelope_log.
  destruct (Z.eqb_spec (status_code r) 200) as [Heq|Hne].
  - split; [reflexivity|]. split; [reflexivity|]. intros Hne. now destruct Hne.
  - split; [|split; [intros Heq; now destruct Hne|intros _]].
    + destruct (json r) as [v|e]; [destruct v|]; try reflexivity.
      now destruct (assoc "stack_trace" kvs).
    + destruct (json r) as [v|e]; [destruct v|]; simpl; try lia.
      destruct (assoc "stack_trace" kvs); simpl; lia.
Qed.
(** X7. The decoders fail in the same three ways for every job class: the
    exception of [response.json()] when the body is not JSON; an
    [AttributeError] when the JSON body is not an object; and, when the
    object has no [result] key, whatever decoding [None] gives: a missing
    result is handled exactly as a null result. *)
Theorem process_outputs_failure_modes cls (r : Response Image Ndarray) :
  (forall e, json r = Err e -> process_outputs lib cls r = Err e)
  /\ (forall v, json r = Ok v -> (forall kvs, v <> VDict kvs) ->
      exists msg, process_outputs lib cls r = Err (mkExn AttributeError msg))
  /\ (forall kvs, json r = Ok (VDict kvs) -> assoc "result" kvs = None ->
      process_outputs lib cls r
      = process_outputs lib cls
          (mkResponse (status_code r) (text r)
             (Ok (VDict (("result", VNone) :: kvs))))).
Proof.
  split; [|split].
  - intros e He. destruct cls; simpl;
      unfold FaceJob_process_outputs, HandsFixJob_process_outputs,
        MaskJob_process_outputs, ModelGenerationJob_process_outputs,
        RetouchJob_process_outputs, TryOnJob_process_outputs;
      now rewrite He.
  - intros v Hv Hnd. eexists. destruct cls; simpl;
      unfold FaceJob_process_outputs, HandsFixJob_process_outputs,
        MaskJob_process_outputs, ModelGenerationJob_process_outputs,
        RetouchJob_process_outputs, TryOnJob_process_outputs;
      rewrite Hv; destruct v; try reflexivity; now destruct (Hnd kvs).
  - intros kvs Hv Hres. destruct cls; simpl;
      unfold FaceJob_process_outputs, HandsFixJob_process_outputs,
        MaskJob_process_outputs, ModelGenerationJob_process_outputs,
        RetouchJob_process_outputs, TryOnJob_process_outputs;
      rewrite Hv; simpl; now rewrite Hres.
Qed.

(** ** The constructor *)

(** X1. [JobClient.__init__] succeeds exactly for the six job type names
    (matched as they are, case included); the client it builds keeps the URL,
    the name and the timeout it was given.  Any other name raises an
    [AssertionError] that quotes the name. *)
Theorem JobClient_init_accepts_six_names (url name : string) (timeout : Z) :
  ((exists c, JobClient_init url name timeout = Ok c)
   <-> In name ["face_job"; "handsfix_job"; "mask_job"; "model_generation_job";
                "retouch_job"; "tryon_job"])
  /\ (forall c, JobClient_init url name timeout = Ok c ->
      server_url c = url /\ job_type c = name /\ max_timeout c = timeout
      /\ job_mapping !! name = Some (job_class c))
  /\ (forall e, JobClient_init url name timeout = Err e ->
      e = mkExn AssertionError ("Invalid job type: " +:+ name)).
Proof.
  unfold JobClient_init.
  split; [|split].
  - split.
    + intros [c Hc]. destruct (job_mapping !! name) as [cls|] eqn:Hlook; [|discriminate].
      apply (elem_of_list_to_map_2 (M := gmap string)) in Hlook.
      apply list_elem_of_In in Hlook. simpl in Hlook.
      repeat (destruct Hlook as [[= <- _]|Hlook]; [simpl; tauto|]). destruct Hlook.
    + intros Hin. simpl in Hin.
      repeat (destruct Hin as [<-|Hin]; [eexists; reflexivity|]). destruct Hin.
  - intros c Hc. destruct (job_mapping !! name) as [cls|] eqn:Hlook; [|discriminate].
    injection Hc as <-. simpl. repeat split.
  - intros e He. destruct (job_mapping !! name); [discriminate|]. now injection He as <-.
Qed.

(** ** The encoders *)

(** X8. An encoder looks at nothing but its class's fields: two inputs that
    agree on the required fields (and on [seed] for the two classes that read
    it) are encoded alike, whatever other keys they carry. *)
Theorem process_inputs_reads_only_its_fields cls (input1 input2 : gmap string Value) :
  (forall k, In k (read_fields cls) -> input1 !! k = input2 !! k) ->
  process_inputs lib cls input1 = process_inputs lib cls input2.
Proof.
  intros H. unfold process_inputs.
  destruct cls;
    unfold FaceJob_process_inputs, HandsFixJob_process_inputs, MaskJob_process_inputs,
      ModelGenerationJob_process_inputs, RetouchJob_process_inputs,
      TryOnJob_process_inputs, py_in, dict_get;
    repeat match goal with
      | |- context [input1 !! ?k] => rewrite (H k ltac:(simpl; tauto))
      end;
    reflexivity.
Qed.

(** X9. A [seed] that is absent and a [seed] that is [None] are the same to
    every encoder. *)
Theorem absent_seed_is_null_seed cls (input_data : gmap string Value) :
  input_data !! "seed" = None ->
  process_inputs lib cls (<["seed" := VNone]> input_data)
  = process_inputs lib cls input_data.
Proof.
  intros Hseed. unfold process_inputs.
  destruct cls;
    unfold FaceJob_process_inputs, HandsFixJob_process_inputs, MaskJob_process_inputs,
      ModelGenerationJob_process_inputs, RetouchJob_process_inputs,
      TryOnJob_process_inputs, py_in, dict_get;
    rewrite ?lookup_insert_eq, ?lookup_insert_ne, ?Hseed by discriminate;
    reflexivity.
Qed.

(** X10. For the five classes that send an image, a [model_img] that is
    present but is [None], a boolean, an integer, a list or a dictionary
    passes the assertions and is refused by the converter: [run_job] raises a
    [ValueError] that names the value's type, and sends, sleeps and logs
    nothing. *)
Theorem unsupported_model_img_fails_fast self (input_data : gmap string Value)
  retry (tr : Tr) (v : Value) :
  job_class self <> ModelGenerationJob ->
  (forall k, In k (required_fields (job_class self)) -> is_Some (input_data !! k)) ->
  input_data !! "model_img" = Some v ->
  unsupported_image_input v = true ->
  run_job lib net self input_data retry tr
  = (Raised (mkExn ValueError ("Unsupported input type: " +:+ type_repr v)), tr).
Proof.
  intros Hcls Hreq Hmodel Hv.
  apply (run_job_encoder_failure lib net).
  unfold process_inputs.
  destruct (job_class self); try (now destruct Hcls); clear Hcls;
    unfold FaceJob_process_inputs, HandsFixJob_process_inputs, MaskJob_process_inputs,
      RetouchJob_process_inputs, TryOnJob_process_inputs, py_in, dict_get;
    rewrite Hmodel;
    repeat match goal with
      | |- context [input_data !! ?k] =>
          let x := fresh "x" in
          let Hx := fresh "Hx" in
          destruct (Hreq k ltac:(simpl; tauto)) as [x Hx]; rewrite Hx
      end;
    simpl; destruct v; try discriminate Hv; reflexivity.
Qed.

(** X11. The attachments of an accepted input are those of the class, in
    order: none for model generation ([files] is [None]); [model_img_buffer]
    for the face, mask, hands-fix and retouch classes; model, cloth and mask
    for try-on.  Each is a PNG file part whose content is the converted input
    field, the null mask alone having no content. *)
Theorem process_inputs_attachments cls (input_data : gmap string Value) files form_data :
  process_inputs lib cls input_data = Ok (files, form_data) ->
  match attachment_slots cls with
  | [] => files = None
  | slots =>
      exists parts,
        files = Some parts
        /\ Forall2
             (fun slot part =>
                let '(name, field, fname) := slot in
                fst part = name
                /\ filename (snd part) = fname
                /\ content_type (snd part) = "image/png"
                /\ match content (snd part) with
                   | Some b => to_bytes lib (dict_get input_data field VNone) = Ok b
                   | None => field = "mask_img" /\ dict_get input_data field VNone = VNone
                   end)
             slots parts
  end.
Proof.
  intros H. unfold process_inputs in H.
  destruct cls;
    unfold FaceJob_process_inputs, HandsFixJob_process_inputs, MaskJob_process_inputs,
      ModelGenerationJob_process_inputs, RetouchJob_process_inputs,
      TryOnJob_process_inputs, exc_bind in H;
    repeat match type of H with
      | context [py_assert ?c ?m] =>
          destruct (py_assert c m); cbn beta iota in H; [|discriminate H]
      | context [match to_bytes lib ?v with _ => _ end] =>
          let Hb := fresh "Hb" in
          destruct (to_bytes lib v) eqn:Hb; cbn beta iota in H; [|discriminate H]
      | context [match ?m with VNone => _ | _ => _ end] =>
          let Hm := fresh "Hm" in
          destruct m eqn:Hm; cbn beta iota in H; try discriminate H
      | context [json_dumps lib ?v] =>
          destruct (json_dumps lib v); cbn beta iota in H; [|discriminate H]
      end;
    injection H as <- <-; simpl;
    try reflexivity;
    (eexists; split; [reflexivity|]);
    repeat (constructor;
            [simpl; repeat split; try assumption;
             match goal with
             | Hm : dict_get _ _ _ = _ |- _ => rewrite Hm; assumption
             end|]);
    constructor.
Qed.

(** ** The converters *)

(** X12. Converting to ["bytes"] (in any letter case) does not decode:
    [convert] gives what [to_bytes] gives, so a byte string comes back as it
    is, image or not. *)
Theorem convert_to_bytes_does_not_decode (image_input : Value) (target_type : string) :
  lower target_type = "bytes" ->
  convert lib image_input target_type
  = match to_bytes lib image_input with
    | Ok b => Ok (VBytes b)
    | Err e => Err e
    end
  /\ forall b, convert lib (VBytes b) target_type = Ok (VBytes b).
Proof.
  intros Ht. unfold convert, from_bytes, exc_bind. rewrite Ht. simpl.
  split; [reflexivity|]. intros b. reflexivity.
Qed.

(** X13. [from_bytes] opens the image before it looks at a target type other
    than ["bytes"]: with an unsupported target type, bytes that are an image
    give a [ValueError] naming the type as written, and bytes that are not give
    the opener's exception instead. *)
Theorem from_bytes_unsupported_target (image_bytes : bytes) (target_type : string) :
  lower target_type <> "bytes" ->
  lower target_type <> "pil" ->
  lower target_type <> "numpy" ->
  from_bytes lib image_bytes target_type
  = match Image_open_bytes lib image_bytes with
    | Ok _ => Err (mkExn ValueError ("Unsupported target type: " +:+ target_type))
    | Err e => Err e
    end.
Proof.
  intros Hb Hp Hn. unfold from_bytes, exc_bind.
  apply String.eqb_neq in Hb, Hp, Hn. rewrite Hb, Hp, Hn. reflexivity.
Qed.
End EncoderProperties.

(** ** s3.py: extensions *)

(** X14. [str_to_extension] returns the member whose value is a dot followed
    by the lower-cased argument, if there is one, and raises a [ValueError]
    quoting the argument otherwise; so it inverts [value] up to the leading
    dot and letter case, and a value passed with its dot is refused. *)
Theorem str_to_extension_inverts_value (extension : string) :
  (forall e, str_to_extension extension = Ok e
             <-> "." +:+ lower extension = ExtensionsEnum_value e)
  /\ (forall err, str_to_extension extension = Err err ->
      err = mkExn ValueError ("Invalid extension: " +:+ extension))
  /\ (forall e, exists err, str_to_extension (ExtensionsEnum_value e) = Err err).
Proof.
  split; [|split].
  - intros e. unfold str_to_extension. split.
    + repeat match goal with
        | |- context [String.eqb ?a ?b] => destruct (String.eqb_spec a b) as [Heq|_]
        end;
        intros [= <-]; simpl; now rewrite Heq.
    + change ("." +:+ lower extension) with (String "." (lower extension)).
      destruct e; intros [= Heq]; rewrite Heq; reflexivity.
  - intros err. unfold str_to_extension.
    repeat match goal with
      | |- context [String.eqb ?a ?b] => destruct (String.eqb a b)
      end;
      intros [= <-]; reflexivity.
  - intros e. destruct e; eexists; vm_compute; reflexivity.
Qed.

(** ** dummy_client.py *)

Section DummyProperties.
Context {Image Ndarray Float : Type} (lib : Lib Image Ndarray) (rng : Random Float).

Local Abbreviation Value := (PyVal Image Ndarray).
Local Abbreviation DState := (DummyState Image Ndarray Float).
Local Abbreviation DEvent := (DummyEvent Image Ndarray Float).

(** X15. [DummyJobClient.__init__] accepts three job types only: model
    generation, mask and try-on.  The three other names that [JobClient]
    accepts are refused with an [AssertionError]; and for every accepted name
    both tables of the module have an entry, so a constructed client never
    meets a [KeyError]. *)
Theorem DummyJobClient_init_accepts_three_names (url name : string) (timeout : Z) :
  ((exists c, DummyJobClient_init url name timeout = Ok c)
   <-> In name ["model_generation_job"; "mask_job"; "tryon_job"])
  /\ (forall c, DummyJobClient_init url name timeout = Ok c ->
      dummy_job_type c = name
      /\ (exists path, dict_getitem fake_data name = Ok path)
      /\ (exists base, dict_getitem fake_time_waiting name = Ok base /\ 0 < base))
  /\ (In name ["face_job"; "handsfix_job"; "retouch_job"] ->
      (exists c, JobClient_init url name timeout = Ok c)
      /\ DummyJobClient_init url name timeout
         = Err (mkExn AssertionError ("Invalid job type: " +:+ name))).
Proof.
  assert (Hin : forall path, fake_data !! name = Some path ->
                In name ["model_generation_job"; "mask_job"; "tryon_job"]).
  { intros path Hlook.
    apply (elem_of_list_to_map_2 (M := gmap string)) in Hlook.
    apply list_elem_of_In in Hlook. simpl in Hlook.
    repeat (destruct Hlook as [[= <- _]|Hlook]; [simpl; tauto|]). destruct Hlook. }
  unfold DummyJobClient_init. split; [|split].
  - split.
    + intros [c Hc]. destruct (fake_data !! name) as [path|] eqn:Hlook; [|discriminate].
      exact (Hin path eq_refl).
    + intros H. simpl in H.
      repeat (destruct H as [<-|H]; [eexists; reflexivity|]). destruct H.
  - intros c Hc. destruct (fake_data !! name) as [path|] eqn:Hlook; [|discriminate].
    injection Hc as <-. split; [reflexivity|].
    specialize (Hin path eq_refl). simpl in Hin.
    repeat (destruct Hin as [<-|Hin];
            [split; eexists; [|split]; vm_compute; reflexivity|]).
    destruct Hin.
  - intros H. simpl in H.
    repeat (destruct H as [<-|H]; [split; [eexists|]; vm_compute; reflexivity|]).
    destruct H.
Qed.

Ltac dummy_reduce :=
  cbv beta iota zeta delta
    [st_bind st_try_except_Exception dummy_emit draw_uniform draw_below_tenth
     st_lift st_ret st_raise dummy_run_job_except is_Exception dummy_failure];
  cbn [dummy_draws dummy_trace exn_class].

(** An attempt whose draw falls below the threshold: no wait, the failure is
    caught, and the loop sleeps two seconds and goes on if budget is left. *)
Lemma dummy_run_job_loop_step_failed fuel self retry attempt (s : DState) base :
  attempt < retry ->
  dict_getitem fake_time_waiting (dummy_job_type self) = Ok base ->
  random_below_tenth rng (S (dummy_draws s)) = true ->
  dummy_run_job_loop lib (S fuel) rng self retry attempt s
  = if attempt + 1 <? retry then
      dummy_run_job_loop lib fuel rng self retry (attempt + 1)
        (mkDummyState
           (dummy_trace s
            ++ [DummyLog INFO (LogSendingRequest (attempt + 1));
                DummyLog ERROR (LogAttemptFailed (attempt + 1) dummy_failure);
                DummyLog INFO LogRetrying; DummySleep 2])
           (S (S (dummy_draws s))))
    else
      (Raised dummy_failure,
       mkDummyState
         (dummy_trace s
          ++ [DummyLog INFO (LogSendingRequest (attempt + 1));
              DummyLog ERROR (LogAttemptFailed (attempt + 1) dummy_failure);
              DummyLog ERROR LogAllFailed])
         (S (S (dummy_draws s)))).
Proof.
  intros Hlt Hbase Hdraw. simpl.
  apply Z.ltb_lt in Hlt. rewrite Hlt.
  unfold dummy_run_job_try. rewrite Hbase. dummy_reduce.
  rewrite Hdraw. dummy_reduce.
  destruct (attempt + 1 <? retry); dummy_reduce; now rewrite <- !app_assoc.
Qed.

(** An attempt whose draw does not fall below the threshold and whose image
    file opens. *)
Lemma dummy_run_job_loop_step_opened fuel self retry attempt (s : DState) base path img :
  attempt < retry ->
  dict_getitem fake_time_waiting (dummy_job_type self) = Ok base ->
  dict_getitem fake_data (dummy_job_type self) = Ok path ->
  random_below_tenth rng (S (dummy_draws s)) = false ->
  Image_open_path lib path = Ok img ->
  dummy_run_job_loop lib (S fuel) rng self retry attempt s
  = (Returned (VImage img),
     mkDummyState
       (dummy_trace s
        ++ [DummyLog INFO (LogSendingRequest (attempt + 1));
            DummyWait base (random_uniform rng (dummy_draws s));
            DummyLog INFO LogTimeTaken])
       (S (S (dummy_draws s)))).
Proof.
  intros Hlt Hbase Hpath Hdraw Himg. simpl.
  apply Z.ltb_lt in Hlt. rewrite Hlt.
  unfold dummy_run_job_try. rewrite Hbase, Hpath. dummy_reduce.
  rewrite Hdraw. dummy_reduce. rewrite Himg. dummy_reduce.
  now rewrite <- !app_assoc.
Qed.

(** [k] failed draws in a row, with budget left after them. *)
Lemma dummy_run_job_loop_failed_prefix self retry base :
  dict_getitem fake_time_waiting (dummy_job_type self) = Ok base ->
  forall (k fuel : nat) attempt (s : DState),
    attempt + Z.of_nat k < retry ->
    (forall j, (j < k)%nat ->
       random_below_tenth rng (dummy_draws s + 2 * j + 1)%nat = true) ->
    exists tr' : list DEvent,
      dummy_run_job_loop lib (k + fuel) rng self retry attempt s
      = dummy_run_job_loop lib fuel rng self retry (attempt + Z.of_nat k)
          (mkDummyState (dummy_trace s ++ tr') (dummy_draws s + 2 * k))
      /\ dummy_sleeps tr' = repeat 2 k
      /\ dummy_waits tr' = [].
Proof.
  intros Hbase k. induction k as [|k IH]; intros fuel attempt s Hlt Hdraws.
  - exists []. rewrite app_nil_r, Z.add_0_r, Nat.add_0_r.
    destruct s. repeat split; reflexivity.
  - change (S k + fuel)%nat with (S (k + fuel)).
    rewrite (dummy_run_job_loop_step_failed _ _ _ _ _ base) by
      (try lia; try assumption;
       specialize (Hdraws 0%nat ltac:(lia));
       now replace (dummy_draws s + 2 * 0 + 1)%nat with (S (dummy_draws s)) in Hdraws by lia).
    replace (attempt + 1 <? retry) with true by (symmetry; apply Z.ltb_lt; lia).
    match goal with
    | |- context [dummy_run_job_loop lib (k + fuel) rng self retry (attempt + 1) ?s2] =>
        destruct (IH fuel (attempt + 1) s2) as (tr' & Hrun & Hsl & Hw)
    end.
    + lia.
    + intros j Hj. simpl dummy_draws.
      replace (S (S (dummy_draws s)) + 2 * j + 1)%nat
        with (dummy_draws s + 2 * S j + 1)%nat by lia.
      apply Hdraws. lia.
    + rewrite Hrun. simpl dummy_trace. simpl dummy_draws.
      exists ([DummyLog INFO (LogSendingRequest (attempt + 1));
               DummyLog ERROR (LogAttemptFailed (attempt + 1) dummy_failure);
               DummyLog INFO LogRetrying; DummySleep 2] ++ tr').
      split; [|split].
      * rewrite <- !app_assoc.
        replace (attempt + 1 + Z.of_nat k) with (attempt + Z.of_nat (S k)) by lia.
        now replace (S (S (dummy_draws s)) + 2 * k)%nat
          with (dummy_draws s + 2 * S k)%nat by lia.
      * unfold dummy_sleeps in *. rewrite omap_app, Hsl. reflexivity.
      * unfold dummy_waits in *. rewrite omap_app, Hw. reflexivity.
Qed.
Lemma DummyJobClient_init_tables (url name : string) (timeout : Z) self :
  DummyJobClient_init url name timeout = Ok self ->
  exists path base,
    dict_getitem fake_data (dummy_job_type self) = Ok path
    /\ dict_getitem fake_time_waiting (dummy_job_type self) = Ok base.
Proof.
  unfold DummyJobClient_init. intros Hc.
  destruct (fake_data !! name) as [path|] eqn:Hlook; [|discriminate].
  injection Hc as <-. simpl.
  apply (elem_of_list_to_map_2 (M := gmap string)) in Hlook.
  apply list_elem_of_In in Hlook. simpl in Hlook.
  repeat (destruct Hlook as [[= <- <-]|Hlook];
          [do 2 eexists; split; vm_compute; reflexivity|]).
  destruct Hlook.
Qed.

(** X16. A constructed dummy client whose every draw falls below the failure
    threshold uses up the budget: with [retry >= 1] it raises
    [Exception("Failed to run the job")] after [retry] attempts (two draws of
    the generator each), sleeps two seconds between consecutive attempts, and
    never waits for a job.  The input is not looked at. *)
Theorem dummy_run_job_exhausts_budget (url name : string) (timeout : Z) self
  (input_data : gmap string Value) retry :
  DummyJobClient_init url name timeout = Ok self ->
  1 <= retry ->
  (forall j, (j < Z.to_nat retry)%nat -> random_below_tenth rng (2 * j + 1)%nat = true) ->
  exists s' : DState,
    dummy_run_job lib rng self input_data retry (mkDummyState [] 0)
    = (Raised dummy_failure, s')
    /\ dummy_sleeps (dummy_trace s') = repeat 2 (Z.to_nat retry - 1)
    /\ dummy_waits (dummy_trace s') = []
    /\ dummy_draws s' = (2 * Z.to_nat retry)%nat.
Proof.
  intros Hinit Hretry Hdraws.
  destruct (DummyJobClient_init_tables _ _ _ _ Hinit) as (path & base & _ & Hbase).
  unfold dummy_run_job.
  destruct (Z.to_nat retry) as [|n] eqn:Hn; [lia|].
  destruct (dummy_run_job_loop_failed_prefix self retry base Hbase n 1 0
              (mkDummyState [] 0))
    as (tr' & Hrun & Hsl & Hw).
  - lia.
  - intros j Hj. cbn [dummy_draws]. apply Hdraws. lia.
  - replace (S n) with (n + 1)%nat by lia. rewrite Hrun.
    rewrite (dummy_run_job_loop_step_failed _ _ _ _ _ base); [|lia|exact Hbase|].
    + replace (0 + Z.of_nat n + 1 <? retry) with false by (symmetry; apply Z.ltb_ge; lia).
      eexists. split; [reflexivity|]. cbn [dummy_trace dummy_draws].
      unfold dummy_sleeps, dummy_waits in *.
      rewrite !omap_app, Hsl, Hw. simpl.
      replace (n + 1 - 1)%nat with n by lia.
      repeat split; [now rewrite app_nil_r|lia].
    + cbn [dummy_draws].
      replace (S (0 + 2 * n))%nat with (2 * n + 1)%nat by lia. apply Hdraws. lia.
Qed.

(** X17. A constructed dummy client whose first [k] draws fail and whose next
    draw does not, with [k < retry] and the fake image on disk, returns that
    image.  It has slept two seconds after each failed attempt and waited
    once, for the job type's base time multiplied by the number drawn in the
    successful attempt. *)
Theorem dummy_run_job_succeeds_after_failed_draws (url name : string) (timeout : Z) self
  (input_data : gmap string Value) retry (k : nat) path base img :
  DummyJobClient_init url name timeout = Ok self ->
  Z.of_nat k < retry ->
  (forall j, (j < k)%nat -> random_below_tenth rng (2 * j + 1)%nat = true) ->
  random_below_tenth rng (2 * k + 1)%nat = false ->
  fake_data !! name = Some path ->
  fake_time_waiting !! name = Some base ->
  Image_open_path lib path = Ok img ->
  exists s' : DState,
    dummy_run_job lib rng self input_data retry (mkDummyState [] 0)
    = (Returned (VImage img), s')
    /\ dummy_sleeps (dummy_trace s') = repeat 2 k
    /\ dummy_waits (dummy_trace s') = [(base, random_uniform rng (2 * k)%nat)].
Proof.
  intros Hinit Hk Hdraws Hok Hpath Hbase Himg.
  assert (Hname : dummy_job_type self = name).
  { unfold DummyJobClient_init in Hinit. rewrite Hpath in Hinit. now injection Hinit as <-. }
  assert (Hbase' : dict_getitem fake_time_waiting (dummy_job_type self) = Ok base).
  { unfold dict_getitem. now rewrite Hname, Hbase. }
  assert (Hpath' : dict_getitem fake_data (dummy_job_type self) = Ok path).
  { unfold dict_getitem. now rewrite Hname, Hpath. }
  unfold dummy_run_job.
  destruct (dummy_run_job_loop_failed_prefix self retry base Hbase' k
              (Z.to_nat retry - k) 0 (mkDummyState [] 0))
    as (tr' & Hrun & Hsl & Hw).
  - lia.
  - intros j Hj. cbn [dummy_draws]. now apply Hdraws.
  - replace (k + (Z.to_nat retry - k))%nat with (Z.to_nat retry) in Hrun by lia.
    rewrite Hrun.
    destruct (Z.to_nat retry - k)%nat as [|fuel] eqn:Hfuel; [lia|].
    rewrite (dummy_run_job_loop_step_opened _ _ _ _ _ base path img);
      [|lia|exact Hbase'|exact Hpath'| |exact Himg].
    + eexists. split; [reflexivity|]. cbn [dummy_trace dummy_draws].
      unfold dummy_sleeps, dummy_waits in *.
      rewrite !omap_app, Hsl, Hw. simpl. split; [now rewrite app_nil_r|reflexivity].
    + cbn [dummy_draws].
      now replace (S (0 + 2 * k))%nat with (2 * k + 1)%nat by lia.
Qed.
(** The [try] block of the dummy client returns an image or raises. *)
Lemma dummy_run_job_try_outcome self attempt (s : DState) :
  (exists img s', dummy_run_job_try lib rng self attempt s
                  = (Returned (LoopReturn (VImage img)), s'))
  \/ (exists e s', dummy_run_job_try lib rng self attempt s = (Raised e, s')).
Proof.
  unfold dummy_run_job_try. dummy_reduce.
  destruct (dict_getitem fake_time_waiting (dummy_job_type self)); dummy_reduce;
    [|right; eauto].
  destruct (random_below_tenth rng _); dummy_reduce; [right; eauto|].
  destruct (dict_getitem fake_data (dummy_job_type self)); dummy_reduce; [|right; eauto].
  destruct (Image_open_path lib _) as [img|]; dummy_reduce; [left|right]; eauto.
Qed.

(** With enough iterations allowed, the loop of the dummy client, entered
    with budget left, returns an image or raises; it does not stop for want
    of iterations and does not fall through. *)
Lemma dummy_run_job_loop_outcome self retry :
  forall fuel attempt (s : DState),
    attempt < retry ->
    (Z.to_nat (retry - attempt) <= fuel)%nat ->
    (exists img s', dummy_run_job_loop lib fuel rng self retry attempt s
                    = (Returned (VImage img), s'))
    \/ (exists e s', dummy_run_job_loop lib fuel rng self retry attempt s
                     = (Raised e, s')).
Proof.
  induction fuel as [|fuel IH]; intros attempt s Hlt Hfuel; [lia|].
  simpl. pose proof Hlt as Hlt'. apply Z.ltb_lt in Hlt'. rewrite Hlt'.
  cbv beta iota zeta delta [st_bind st_try_except_Exception].
  destruct (dummy_run_job_try_outcome self attempt s)
    as [(img & s1 & ->)|(e & s1 & ->)].
  - left. exists img, s1. reflexivity.
  - destruct (is_Exception e); [|right; eauto].
    unfold dummy_run_job_except. dummy_reduce.
    destruct (attempt + 1 <? retry) eqn:Hnext; dummy_reduce; [|right; eauto].
    apply IH; [now apply Z.ltb_lt|lia].
Qed.

(** The bound on the iterations is never the reason the dummy client stops. *)
Lemma dummy_run_job_fuel_suffices self (input_data : gmap string Value) retry
  (s : DState) :
  fst (dummy_run_job lib rng self input_data retry s) <> OutOfFuel.
Proof.
  unfold dummy_run_job.
  destruct (Z_lt_le_dec 0 retry) as [Hlt|Hle].
  - destruct (dummy_run_job_loop_outcome self retry (Z.to_nat retry) 0 s Hlt)
      as [(img & s' & ->)|(e & s' & ->)]; [lia|discriminate ..].
  - apply Z.ltb_ge in Hle. destruct (Z.to_nat retry); simpl; rewrite Hle; discriminate.
Qed.

(** X24. With an attempt budget of at least one, the dummy client never
    returns [None]: every call ends by returning an image or by raising; with
    a budget of zero or less it returns [None] at once, drawing nothing.
    (The callers in [main.py] use the default budget of three, so their tests
    [result is None] never fire.) *)
Theorem dummy_run_job_returns_image_or_raises self (input_data : gmap string Value)
  retry (s : DState) :
  (1 <= retry ->
   (exists img s', dummy_run_job lib rng self input_data retry s
                   = (Returned (VImage img), s'))
   \/ (exists e s', dummy_run_job lib rng self input_data retry s = (Raised e, s')))
  /\ (retry <= 0 ->
      dummy_run_job lib rng self input_data retry s = (Returned VNone, s)).
Proof.
  split.
  - intros Hretry. unfold dummy_run_job.
    apply dummy_run_job_loop_outcome; lia.
  - intros Hretry. unfold dummy_run_job.
    apply Z.ltb_ge in Hretry.
    destruct (Z.to_nat retry); simpl; now rewrite Hretry.
Qed.
End DummyProperties.

(** ** s3.py: transfers *)

Section S3Properties.
Context {Image Ndarray Client : Type}.
Context (lib : Lib Image Ndarray) (s3lib : S3Lib Image) (world : S3World Client).

Local Abbreviation S3Tr := (list (S3Event Client)).

Ltac s3_reduce :=
  cbv beta iota zeta delta
    [st_bind st_try_except_Exception st_lift st_ret st_raise s3_call
     s3_logger_error s3_client_or_new].

(** X18. Each of the four transfer functions refuses a URI whose scheme is
    not [s3] with [ValueError("Invalid S3 URI: ...")], raised to the caller
    (not turned into a ["fail"] status) before anything is done: no folder is
    made, no client is created, nothing is transferred or logged. *)
Theorem s3_functions_refuse_other_schemes (uri : string) (parsed : ParseResult)
  (tr : S3Tr) :
  urlparse s3lib uri = Ok parsed ->
  uri_scheme parsed <> "s3" ->
  (forall folder client new_name,
     download_file s3lib world uri folder client new_name tr
     = (Raised (invalid_s3_uri uri), tr))
  /\ (forall local_path client,
        upload_file s3lib world local_path uri client tr
        = (Raised (invalid_s3_uri uri), tr))
  /\ (forall client,
        download_image lib s3lib world uri client tr = (Raised (invalid_s3_uri uri), tr))
  /\ (forall image client,
        upload_image s3lib world image uri client tr = (Raised (invalid_s3_uri uri), tr)).
Proof.
  intros Hparse Hscheme. apply String.eqb_neq in Hscheme.
  repeat split; intros;
    unfold download_file, upload_file, download_image, upload_image;
    rewrite Hparse; s3_reduce; now rewrite Hscheme.
Qed.

(** X19. [download_file] does not download a file that is already there:
    when the local path exists it returns that path with status ["skipped"],
    having made the output folder but created no client and called the store
    not at all.  The local path is the output folder joined with the base
    name of the URI's path, or with the new name followed by that base name's
    extension. *)
Theorem download_file_skips_existing (uri folder : string) (parsed : ParseResult)
  (client : option Client) (new_name : option string) (tr : S3Tr) :
  let base := os_path_basename s3lib (uri_path parsed) in
  let local_path :=
    os_path_join s3lib folder
      match new_name with
      | Some n => n +:+ snd (os_path_splitext s3lib base)
      | None => base
      end in
  urlparse s3lib uri = Ok parsed ->
  uri_scheme parsed = "s3" ->
  os_makedirs world folder = Ok tt ->
  os_path_exists world local_path = true ->
  download_file s3lib world uri folder client new_name tr
  = (Returned (local_path, "skipped"), tr ++ [S3MakeDirs folder]).
Proof.
  intros base local_path Hparse Hscheme Hmk Hex.
  unfold download_file. rewrite Hparse. s3_reduce.
  apply String.eqb_eq in Hscheme. rewrite Hscheme, Hmk. cbn [negb].
  subst local_path base. destruct new_name; cbv beta iota zeta; now rewrite Hex.
Qed.

(** X20. The statuses.  [download_file] returns ["skipped"], ["success"] or
    ["fail"]; [upload_file], [download_image] and [upload_image] return
    ["success"] or ["fail"] only, never ["skipped"]; the uploads return the
    URI they were given; and [download_image] returns an image exactly with
    ["success"] and [None] exactly with ["fail"]. *)
Theorem s3_statuses (tr tr' : S3Tr) :
  (forall uri folder client new_name local_path status,
     download_file s3lib world uri folder client new_name tr
     = (Returned (local_path, status), tr') ->
     In status ["skipped"; "success"; "fail"])
  /\ (forall local_path uri client result status,
        upload_file s3lib world local_path uri client tr
        = (Returned (result, status), tr') ->
        result = uri /\ In status ["success"; "fail"])
  /\ (forall uri client image status,
        download_image lib s3lib world uri client tr
        = (Returned (image, status), tr') ->
        (status = "success" /\ is_Some image) \/ (status = "fail" /\ image = None))
  /\ (forall image uri client result status,
        upload_image s3lib world image uri client tr
        = (Returned (result, status), tr') ->
        result = uri /\ In status ["success"; "fail"]).
Proof.
  split; [|split; [|split]]; intros *;
    unfold download_file, upload_file, download_image, upload_image;
    s3_reduce;
    repeat match goal with
      | |- context [match ?x with _ => _ end] =>
          lazymatch x with
          | context [match _ with _ => _ end] => fail
          | _ => destruct x; cbn beta iota
          end
      end;
    intros H; try discriminate H; inversion H; subst;
    first [ left; split; [reflexivity|eexists; reflexivity]
          | right; split; reflexivity
          | split; [reflexivity|simpl; tauto]
          | simpl; tauto ].
Qed.
(** X21. Given a client and an [s3] URI, [upload_file], [download_image] and
    [upload_image] let no [Exception] out: whatever the store, the image
    library and the checks inside the [try] raise, the call returns a status;
    only an exception outside the [Exception] class can leave it.  The same
    holds for [download_file] once the output folder has been made.  In
    particular an upload that the store refuses with an [Exception] returns
    [(s3_uri, "fail")] after that one call, with the exception in the log. *)
Theorem s3_failures_become_statuses (uri : string) (parsed : ParseResult)
  (c : Client) (tr : S3Tr) :
  urlparse s3lib uri = Ok parsed ->
  uri_scheme parsed = "s3" ->
  let contained {A : Type} (r : Outcome A * S3Tr) : Prop :=
    match fst r with
    | Returned _ => True
    | Raised e => is_Exception e = false
    | OutOfFuel => False
    end in
  (forall local_path, contained (upload_file s3lib world local_path uri (Some c) tr))
  /\ contained (download_image lib s3lib world uri (Some c) tr)
  /\ (forall image, contained (upload_image s3lib world image uri (Some c) tr))
  /\ (forall folder new_name,
        os_makedirs world folder = Ok tt ->
        contained (download_file s3lib world uri folder (Some c) new_name tr))
  /\ (forall local_path e,
        s3_upload_file world c local_path (uri_netloc parsed)
          (lstrip_slash (uri_path parsed)) = Err e ->
        is_Exception e = true ->
        upload_file s3lib world local_path uri (Some c) tr
        = (Returned (uri, "fail"),
           tr ++ [S3UploadFile c local_path (uri_netloc parsed)
                    (lstrip_slash (uri_path parsed));
                  S3Log (S3LogUploadError local_path e)])).
Proof.
  intros Hparse Hscheme contained. apply String.eqb_eq in Hscheme.
  split; [|split; [|split; [|split]]].
  5: { intros local_path e Hstore Hexc. unfold upload_file.
       rewrite Hparse. s3_reduce. rewrite Hscheme. cbn [negb].
       rewrite Hstore. cbn beta iota. rewrite Hexc.
       now rewrite <- app_assoc. }
  all: intros *; try intros Hmk;
    unfold contained, download_file, upload_file, download_image, upload_image;
    rewrite Hparse; s3_reduce; rewrite Hscheme; cbn [negb]; rewrite ?Hmk;
    cbn [fst];
    repeat match goal with
      | |- context [match ?x with _ => _ end] =>
          lazymatch x with
          | context [match _ with _ => _ end] => fail
          | _ => destruct x eqn:?; cbn beta iota; cbn [fst]
          end
      end;
    try exact I; try assumption.
Qed.

(** X22. [download_image] checks the extension before it downloads: when the
    lower-cased extension of the key is not the value of an [ExtensionsEnum]
    member, the result is [(None, "fail")], the error is logged, and the store
    is not called. *)
Theorem download_image_checks_extension_first (uri : string) (parsed : ParseResult)
  (c : Client) (tr : S3Tr) :
  let extension := lower (snd (os_path_splitext s3lib (lstrip_slash (uri_path parsed)))) in
  urlparse s3lib uri = Ok parsed ->
  uri_scheme parsed = "s3" ->
  ~ In extension ExtensionsEnum_values ->
  download_image lib s3lib world uri (Some c) tr
  = (Returned (None, "fail"),
     tr ++ [S3Log (S3LogDownloadError uri
                     (mkExn ValueError ("Invalid file extension: " +:+ extension)))]).
Proof.
  intros extension Hparse Hscheme Hext.
  unfold download_image. rewrite Hparse. s3_reduce.
  apply String.eqb_eq in Hscheme. rewrite Hscheme. cbn [negb].
  fold extension.
  rewrite bool_decide_eq_false_2 by (now rewrite list_elem_of_In).
  reflexivity.
Qed.

(** X23. [upload_image] uploads nothing when the image has no format, or a
    format that is not (in lower case, after a dot) the value of an
    [ExtensionsEnum] member: it returns [(s3_uri, "fail")] and logs the
    error, without saving the image and without calling the store. *)
Theorem upload_image_checks_format_first (image : Image) (uri : string)
  (parsed : ParseResult) (c : Client) (tr : S3Tr) :
  urlparse s3lib uri = Ok parsed ->
  uri_scheme parsed = "s3" ->
  match Image_format s3lib image with
  | None => True
  | Some format => ~ In ("." +:+ lower format) ExtensionsEnum_values
  end ->
  upload_image s3lib world image uri (Some c) tr
  = (Returned (uri, "fail"),
     tr ++ [S3Log (S3LogUploadImageError uri
                     (mkExn ValueError
                        ("Invalid image format: "
                         +:+ default "None" (Image_format s3lib image))))]).
Proof.
  intros Hparse Hscheme Hfmt.
  unfold upload_image. rewrite Hparse. s3_reduce.
  apply String.eqb_eq in Hscheme. rewrite Hscheme. cbn [negb].
  destruct (Image_format s3lib image) as [format|]; [|reflexivity].
  rewrite bool_decide_eq_false_2 by (now rewrite list_elem_of_In).
  reflexivity.
Qed.
End S3Properties.

(** * The further properties on the concrete worlds *)

(** X2 at a server that fails twice and then answers. *)
Lemma run_job_succeeds_after_failures_witness :
  exists tr,
    run_job Sample.lib flaky_server (Sample.gpu_client MaskJob "mask_job")
      Sample.mask_input 3 []
    = (Returned (VImage Sample.pixel_png), tr)
    /\ actions tr
       = retry_schedule
           (run_job_request (Sample.gpu_client MaskJob "mask_job")
              Sample.mask_files Sample.mask_form) 3
    /\ count_posts tr = 3%nat
    /\ count_sleeps tr = 2%nat.
Proof.
  apply (run_job_succeeds_after_failures Sample.lib flaky_server
           (Sample.gpu_client MaskJob "mask_job") Sample.mask_input 3
           Sample.mask_files Sample.mask_form
           (fun j => match j with
                     | O => Sample.decode_none_error
                     | _ => Sample.connection_refused
                     end)
           2 (VImage Sample.pixel_png)).
  - vm_compute. reflexivity.
  - lia.
  - intros j Hj. destruct j as [|[|j]]; [vm_compute; split; reflexivity ..|lia].
  - vm_compute. reflexivity.
Defined.

(** X3 at a server whose first POST is interrupted from the keyboard, and
    at a 502 whose [json()] is interrupted inside the validator. *)
Lemma run_job_does_not_retry_base_exceptions_witness :
  (exists tr,
     run_job Sample.lib (Sample.scripted_server [Err keyboard_interrupt])
       (Sample.gpu_client MaskJob "mask_job") Sample.mask_input 3 []
     = (Raised keyboard_interrupt, tr)
     /\ count_posts tr = 1%nat
     /\ count_sleeps tr = 0%nat
     /\ List.last (actions tr) (EvSleep 2)
        = EvPost (run_job_request (Sample.gpu_client MaskJob "mask_job")
                    Sample.mask_files Sample.mask_form))
  /\ _check_response (Sample.gpu_client MaskJob "mask_job") interrupted_502 []
     = (Returned tt, [EvLog ERROR (LogRawResponse "Bad Gateway")]).
Proof.
  destruct (run_job_does_not_retry_base_exceptions Sample.lib
              (Sample.scripted_server [Err keyboard_interrupt])
              (Sample.gpu_client MaskJob "mask_job") Sample.mask_input 3
              Sample.mask_files Sample.mask_form (fun _ => Sample.connection_refused)
              0 keyboard_interrupt)
    as [Hrun Hswallow].
  - vm_compute. reflexivity.
  - lia.
  - intros j Hj. lia.
  - left. vm_compute. reflexivity.
  - reflexivity.
  - split; [exact Hrun|].
    apply (Hswallow interrupted_502 keyboard_interrupt []); [discriminate|reflexivity].
Defined.

(** X5 at a healthy server. *)
Lemma run_job_returns_image_or_raises_witness :
  exists img : Sample.Image, VImage (Ndarray := Sample.Ndarray) Sample.pixel_png = VImage img.
Proof.
  apply (run_job_returns_image_or_raises Sample.lib Sample.healthy_server
           (Sample.gpu_client MaskJob "mask_job") Sample.mask_input 3 []).
  - lia.
  - vm_compute. reflexivity.
Defined.

(** X8 at the mask class and an input with one more key. *)
Lemma process_inputs_reads_only_its_fields_witness :
  process_inputs Sample.lib MaskJob Sample.mask_input
  = process_inputs Sample.lib MaskJob (<["comment" := VStr "draft"]> Sample.mask_input).
Proof.
  apply (process_inputs_reads_only_its_fields Sample.lib MaskJob).
  intros k [<-|[<-|[]]]; vm_compute; reflexivity.
Defined.

(** X9 at the retouch class. *)
Lemma absent_seed_is_null_seed_witness :
  process_inputs Sample.lib RetouchJob (<["seed" := VNone]> Sample.handsfix_input)
  = process_inputs Sample.lib RetouchJob Sample.handsfix_input.
Proof.
  apply (absent_seed_is_null_seed Sample.lib RetouchJob Sample.handsfix_input).
  vm_compute. reflexivity.
Defined.

(** X10 at the mask class and a [model_img] that is [None]. *)
Lemma unsupported_model_img_fails_fast_witness :
  run_job Sample.lib Sample.healthy_server (Sample.gpu_client MaskJob "mask_job")
    (<["model_img" := VNone]> Sample.mask_input) 3 []
  = (Raised (mkExn ValueError "Unsupported input type: <class 'NoneType'>"), []).
Proof.
  apply (unsupported_model_img_fails_fast Sample.lib Sample.healthy_server
           (Sample.gpu_client MaskJob "mask_job")
           (<["model_img" := VNone]> Sample.mask_input) 3 [] VNone).
  - discriminate.
  - intros k [<-|[<-|[]]]; vm_compute; eexists; reflexivity.
  - vm_compute. reflexivity.
  - reflexivity.
Defined.

(** X11 at the try-on class and a null mask. *)
Lemma process_inputs_attachments_witness :
  exists parts,
    Some [("model_img_buffer",
           mkFilePart "model.png" (Some Sample.pixel_png) "image/png");
          ("cloth_img_buffer",
           mkFilePart "cloth.png" (Some Sample.pixel_png) "image/png");
          ("mask_img_buffer", mkFilePart "mask.png" None "image/png")]
    = Some parts
    /\ length parts = 3%nat.
Proof.
  destruct (process_inputs_attachments Sample.lib TryOnJob Sample.tryon_input_null_mask
              (Some [("model_img_buffer",
                      mkFilePart "model.png" (Some Sample.pixel_png) "image/png");
                     ("cloth_img_buffer",
                      mkFilePart "cloth.png" (Some Sample.pixel_png) "image/png");
                     ("mask_img_buffer", mkFilePart "mask.png" None "image/png")])
              Sample.mask_form)
    as (parts & Hparts & Hall).
  - vm_compute. reflexivity.
  - exists parts. split; [exact Hparts|].
    apply Forall2_length in Hall. simpl in Hall. now symmetry.
Defined.

(** X12 at the target type written in capitals. *)
Lemma convert_to_bytes_does_not_decode_witness :
  convert Sample.lib (VBytes [x00; x01]) "BYTES" = Ok (VBytes [x00; x01]).
Proof.
  apply (convert_to_bytes_does_not_decode Sample.lib (VBytes [x00; x01]) "BYTES").
  reflexivity.
Defined.

(** X13 at the target type [tensor], which the docstring lists and the code
    does not handle. *)
Lemma from_bytes_unsupported_target_witness :
  from_bytes Sample.lib Sample.pixel_png "tensor"
  = match Image_open_bytes Sample.lib Sample.pixel_png with
    | Ok _ => Err (mkExn ValueError "Unsupported target type: tensor")
    | Err e => Err e
    end.
Proof.
  apply (from_bytes_unsupported_target Sample.lib Sample.pixel_png "tensor");
    intros H; vm_compute in H; discriminate H.
Defined.

(** X16 at a generator that always fails. *)
Lemma dummy_run_job_exhausts_budget_witness :
  exists s',
    dummy_run_job DummySample.lib DummySample.unlucky (mkDummyJobClient "mask_job")
      ∅ 3 DummySample.initial
    = (Raised dummy_failure, s')
    /\ dummy_sleeps (dummy_trace s') = [2; 2]
    /\ dummy_waits (dummy_trace s') = []
    /\ dummy_draws s' = 6%nat.
Proof.
  apply (dummy_run_job_exhausts_budget DummySample.lib DummySample.unlucky
           "http://gpu:8000" "mask_job" 600 (mkDummyJobClient "mask_job") ∅ 3).
  - vm_compute. reflexivity.
  - lia.
  - intros j _. reflexivity.
Defined.

(** X17 at a generator that fails twice. *)
Lemma dummy_run_job_succeeds_after_failed_draws_witness :
  exists s',
    dummy_run_job DummySample.lib DummySample.lucky_at_third
      (mkDummyJobClient "mask_job") ∅ 3 DummySample.initial
    = (Returned (VImage Sample.pixel_png), s')
    /\ dummy_sleeps (dummy_trace s') = [2; 2]
    /\ dummy_waits (dummy_trace s') = [(7, (3, 4))].
Proof.
  apply (dummy_run_job_succeeds_after_failed_draws DummySample.lib
           DummySample.lucky_at_third "http://gpu:8000" "mask_job" 600
           (mkDummyJobClient "mask_job") ∅ 3 2 "data/mask.webp" 7 Sample.pixel_png).
  - vm_compute. reflexivity.
  - lia.
  - intros j Hj. destruct j as [|[|j]]; [reflexivity ..|lia].
  - reflexivity.
  - vm_compute. reflexivity.
  - vm_compute. reflexivity.
  - vm_compute. reflexivity.
Defined.

(** X18 at an [https] URI. *)
Lemma s3_functions_refuse_other_schemes_witness :
  download_image Sample.lib S3Sample.s3lib S3Sample.world S3Sample.web_uri None []
  = (Raised (invalid_s3_uri S3Sample.web_uri), []).
Proof.
  destruct (s3_functions_refuse_other_schemes Sample.lib S3Sample.s3lib S3Sample.world
              S3Sample.web_uri (mkParseResult "https" "example.com" "/shirt.png") [])
    as (_ & _ & Himg & _).
  - vm_compute. reflexivity.
  - discriminate.
  - apply Himg.
Defined.

(** X19 at a file that is already in the output folder. *)
Lemma download_file_skips_existing_witness :
  download_file S3Sample.s3lib S3Sample.world S3Sample.shirt_uri "out" None None []
  = (Returned ("out/shirt.png", "skipped"), [S3MakeDirs "out"]).
Proof.
  apply (download_file_skips_existing S3Sample.s3lib S3Sample.world
           S3Sample.shirt_uri "out"
           (mkParseResult "s3" "wardrobe" "/garments/shirt.png") None None []).
  - vm_compute. reflexivity.
  - reflexivity.
  - reflexivity.
  - vm_compute. reflexivity.
Defined.

(** X21 at a store that refuses every call: the upload returns ["fail"]
    with the refusal in the log, no exception leaves [download_image], and
    the three other functions return ["fail"] as well. *)
Lemma s3_failures_become_statuses_witness :
  upload_file S3Sample.s3lib broken_store "out/shirt.png" S3Sample.shirt_uri (Some tt) []
  = (Returned (S3Sample.shirt_uri, "fail"),
     [S3UploadFile tt "out/shirt.png" "wardrobe" "garments/shirt.png";
      S3Log (S3LogUploadError "out/shirt.png" access_denied)])
  /\ match fst (download_image Sample.lib S3Sample.s3lib broken_store
                  S3Sample.shirt_uri (Some tt) []) with
     | Returned _ => True
     | Raised e => is_Exception e = false
     | OutOfFuel => False
     end
  /\ download_image Sample.lib S3Sample.s3lib broken_store S3Sample.shirt_uri (Some tt) []
     = (Returned (None, "fail"),
        [S3DownloadFileobj tt "wardrobe" "garments/shirt.png";
         S3Log (S3LogDownloadError S3Sample.shirt_uri access_denied)])
  /\ fst (upload_image S3Sample.s3lib broken_store Sample.pixel_png S3Sample.shirt_uri
            (Some tt) [])
     = Returned (S3Sample.shirt_uri, "fail")
  /\ fst (download_file S3Sample.s3lib broken_store S3Sample.shirt_uri "out"
            (Some tt) None [])
     = Returned ("out/shirt.png", "fail").
Proof.
  destruct (s3_failures_become_statuses Sample.lib S3Sample.s3lib broken_store
              S3Sample.shirt_uri
              (mkParseResult "s3" "wardrobe" "/garments/shirt.png") tt [])
    as (_ & Himg & _ & _ & Hrefused).
  - vm_compute. reflexivity.
  - reflexivity.
  - split.
    + apply (Hrefused "out/shirt.png" access_denied); reflexivity.
    + split; [exact Himg|].
      split; [|split]; vm_compute; reflexivity.
Defined.

(** X22 at a key that ends in [.pdf]. *)
Lemma download_image_checks_extension_first_witness :
  download_image Sample.lib S3Sample.s3lib S3Sample.world S3Sample.notes_uri (Some tt) []
  = (Returned (None, "fail"),
     [S3Log (S3LogDownloadError S3Sample.notes_uri
               (mkExn ValueError "Invalid file extension: .pdf"))]).
Proof.
  apply (download_image_checks_extension_first Sample.lib S3Sample.s3lib S3Sample.world
           S3Sample.notes_uri (mkParseResult "s3" "wardrobe" "/notes.pdf") tt []).
  - vm_compute. reflexivity.
  - reflexivity.
  - vm_compute. intros H. repeat (destruct H as [H|H]; [discriminate H|]). exact H.
Defined.

(** X23 at an image without a format. *)
Lemma upload_image_checks_format_first_witness :
  upload_image S3Sample.s3lib S3Sample.world [] S3Sample.shirt_uri (Some tt) []
  = (Returned (S3Sample.shirt_uri, "fail"),
     [S3Log (S3LogUploadImageError S3Sample.shirt_uri
               (mkExn ValueError "Invalid image format: None"))]).
Proof.
  apply (upload_image_checks_format_first S3Sample.s3lib S3Sample.world []
           S3Sample.shirt_uri (mkParseResult "s3" "wardrobe" "/garments/shirt.png") tt []).
  - vm_compute. reflexivity.
  - reflexivity.
  - vm_compute. exact I.
Defined.

(** X24 at a generator that fails twice, with three attempts and with none. *)
Lemma dummy_run_job_returns_image_or_raises_witness :
  ((exists img s',
      dummy_run_job DummySample.lib DummySample.lucky_at_third
        (mkDummyJobClient "mask_job") ∅ 3 DummySample.initial
      = (Returned (VImage img), s'))
   \/ (exists e s',
         dummy_run_job DummySample.lib DummySample.lucky_at_third
           (mkDummyJobClient "mask_job") ∅ 3 DummySample.initial
         = (Raised e, s')))
  /\ dummy_run_job DummySample.lib DummySample.lucky_at_third
       (mkDummyJobClient "mask_job") ∅ 0 DummySample.initial
     = (Returned VNone, DummySample.initial).
Proof.
  split.
  - apply (dummy_run_job_returns_image_or_raises DummySample.lib
             DummySample.lucky_at_third (mkDummyJobClient "mask_job") ∅ 3
             DummySample.initial).
    lia.
  - apply (dummy_run_job_returns_image_or_raises DummySample.lib
             DummySample.lucky_at_third (mkDummyJobClient "mask_job") ∅ 0
             DummySample.initial).
    lia.
Defined.
